(** * CareerNav backend: the resume endpoints of [backend/app.py]

    A shallow embedding of the three upload handlers of the Flask
    application ([process_resume], [extract_skills], [extract_resume])
    together with the pieces of the Python runtime they rely on: dynamic
    values, exceptions, [os.path], a file system and the print log.

    The text extractor, the cleaner, the info extractor and the Gemini
    service live in other modules of the repository ([utils/...]); the
    handlers only call them, so they enter the development as fields of an
    environment record and every statement about a handler quantifies over
    them. *)

From Stdlib Require Import ZArith String Ascii List Lia DecimalString.
From Stdlib Require Import Strings.Byte.
From stdpp Require Import base gmap strings list.
Import ListNotations.

Local Open Scope string_scope.
#[local] Set Warnings "-register-all".

(** ** Python values *)

(** The JSON-shaped fragment of Python's values: what the collaborators
    return and what [jsonify] accepts. A [dict] keeps insertion order, as
    Python's does, so it is an association list. Characters are the 8-bit
    ones of [ascii], read as the code points U+0000..U+00FF. *)
Inductive value : Type :=
| VNone
| VBool (b : bool)
| VInt (n : Z)
| VStr (s : string)
| VList (l : list value)
| VDict (d : list (string * value)).

Definition dict : Type := list (string * value).

(** [str(e)] is all the handlers ever read of an exception, and every
    handler catches the class [Exception] as a whole. *)
Inductive exn : Type := Exception (msg : string).

Definition str_exn (e : exn) : string := match e with Exception m => m end.

Inductive outcome (A : Type) : Type :=
| Ok (a : A)
| Raise (e : exn).
Arguments Ok {A} a.
Arguments Raise {A} e.

Definition obind {A B} (o : outcome A) (k : A -> outcome B) : outcome B :=
  match o with
  | Ok a => k a
  | Raise e => Raise e
  end.

Declare Scope py_scope.
Delimit Scope py_scope with py.
Notation "'let?' x := m 'in' k" := (obind m (fun x => k))
  (at level 10, x name, m at level 100, k at level 200, only parsing) : py_scope.
Local Open Scope py_scope.

Fixpoint omap {A B} (f : A -> outcome B) (l : list A) : outcome (list B) :=
  match l with
  | [] => Ok []
  | x :: r => let? y := f x in let? ys := omap f r in Ok (y :: ys)
  end.

(** [bool(v)]: [None], [False], [0] and the empty containers are falsy. *)
Definition truthy (v : value) : bool :=
  match v with
  | VNone => false
  | VBool b => b
  | VInt n => negb (n =? 0)%Z
  | VStr s => negb (String.eqb s "")
  | VList l => match l with [] => false | _ => true end
  | VDict d => match d with [] => false | _ => true end
  end.

Definition type_name (v : value) : string :=
  match v with
  | VNone => "NoneType"
  | VBool _ => "bool"
  | VInt _ => "int"
  | VStr _ => "str"
  | VList _ => "list"
  | VDict _ => "dict"
  end.

(** [len(v)]; a [TypeError] on a value without a length. *)
Definition py_len (v : value) : outcome Z :=
  match v with
  | VStr s => Ok (Z.of_nat (String.length s))
  | VList l => Ok (Z.of_nat (List.length l))
  | VDict d => Ok (Z.of_nat (List.length d))
  | _ => Raise (Exception ("object of type '" ++ type_name v ++ "' has no len()"))
  end.

Fixpoint dict_lookup (k : string) (d : dict) : option value :=
  match d with
  | [] => None
  | (k', v) :: r => if String.eqb k' k then Some v else dict_lookup k r
  end.

(** [d[k] = v]: an existing key keeps its position. *)
Fixpoint dict_set (k : string) (v : value) (d : dict) : dict :=
  match d with
  | [] => [(k, v)]
  | (k', v') :: r => if String.eqb k' k then (k', v) :: r else (k', v') :: dict_set k v r
  end.

Definition dict_keys (d : dict) : list string := map fst d.

(** [v.get(k, default)]: only a dict has the method; anything else raises
    [AttributeError]. *)
Definition py_get (v : value) (k : string) (default : value) : outcome value :=
  match v with
  | VDict d => Ok (match dict_lookup k d with Some x => x | None => default end)
  | _ => Raise (Exception ("'" ++ type_name v ++ "' object has no attribute 'get'"))
  end.

Fixpoint chars (s : string) : list value :=
  match s with
  | EmptyString => []
  | String c r => VStr (String c EmptyString) :: chars r
  end.

(** [v[:n]] *)
Definition py_slice_to (n : nat) (v : value) : outcome value :=
  match v with
  | VList l => Ok (VList (firstn n l))
  | VStr s => Ok (VStr (substring 0 n s))
  | VDict _ => Raise (Exception "unhashable type: 'slice'")
  | _ => Raise (Exception ("'" ++ type_name v ++ "' object is not subscriptable"))
  end.

(** [v[0]] *)
Definition py_index0 (v : value) : outcome value :=
  match v with
  | VList (x :: _) => Ok x
  | VList [] => Raise (Exception "list index out of range")
  | VStr (String c _) => Ok (VStr (String c EmptyString))
  | VStr EmptyString => Raise (Exception "string index out of range")
  | VDict _ => Raise (Exception "0")
  | _ => Raise (Exception ("'" ++ type_name v ++ "' object is not subscriptable"))
  end.

(** The elements a [for] loop sees. *)
Definition py_iter (v : value) : outcome (list value) :=
  match v with
  | VList l => Ok l
  | VStr s => Ok (chars s)
  | VDict d => Ok (map VStr (dict_keys d))
  | _ => Raise (Exception ("'" ++ type_name v ++ "' object is not iterable"))
  end.

(** [a or b] *)
Definition py_or (a b : value) : value := if truthy a then a else b.

Definition of_option (o : option string) : value :=
  match o with
  | Some s => VStr s
  | None => VNone
  end.

(** [str(n)] for an [int]. *)
Definition str_int (n : Z) : string := NilZero.string_of_int (Z.to_int n).

(** ** Strings and paths *)

(** [str.lower] on U+0000..U+00FF: the letters A-Z and the Latin-1 capitals
    U+00C0..U+00DE (the sign U+00D7 apart) move up by 32. *)
Definition lower_char (c : ascii) : ascii :=
  let n := nat_of_ascii c in
  if (((65 <=? n) && (n <=? 90)) || ((192 <=? n) && (n <=? 222) && negb (n =? 215)))%nat
  then ascii_of_nat (n + 32)%nat
  else c.

Fixpoint lower (s : string) : string :=
  match s with
  | EmptyString => EmptyString
  | String c r => String (lower_char c) (lower r)
  end.

(** [s.rfind(c)] for a one-character [c]: the last index, [-1] when absent. *)
Fixpoint rfind (c : ascii) (s : string) : Z :=
  match s with
  | EmptyString => (-1)%Z
  | String a r =>
      let i := rfind c r in
      if (0 <=? i)%Z then (i + 1)%Z
      else if Ascii.eqb a c then 0%Z else (-1)%Z
  end.

(** [s[:i]] and [s[i:]] for [0 <= i]. *)
Definition slice_to (i : Z) (s : string) : string := substring 0 (Z.to_nat i) s.
Definition slice_from (i : Z) (s : string) : string :=
  substring (Z.to_nat i) (String.length s - Z.to_nat i) s.

Definition sep : ascii := "/"%char.
Definition extsep : ascii := "."%char.

(** The loop of [genericpath._splitext] that skips the leading dots of the
    last component: [n] positions from [filenameIndex] up to the last dot
    are inspected, and the first one that is not a dot ends the search. *)
Fixpoint has_stem (n : nat) (p : string) (filenameIndex : Z) : bool :=
  match n with
  | O => false
  | S n' =>
      match String.get (Z.to_nat filenameIndex) p with
      | Some c => if Ascii.eqb c extsep then has_stem n' p (filenameIndex + 1)%Z else true
      | None => true
      end
  end.

(** [os.path.splitext] of [posixpath] ([sep = '/'], no [altsep]). *)
Definition splitext (p : string) : string * string :=
  let sepIndex := rfind sep p in
  let dotIndex := rfind extsep p in
  if (sepIndex <? dotIndex)%Z
     && has_stem (Z.to_nat (dotIndex - (sepIndex + 1))) p (sepIndex + 1)%Z
  then (slice_to dotIndex p, slice_from dotIndex p)
  else (p, EmptyString).

Definition startswith_sep (b : string) : bool :=
  match b with
  | String c _ => Ascii.eqb c sep
  | EmptyString => false
  end.

Fixpoint endswith_sep (a : string) : bool :=
  match a with
  | EmptyString => false
  | String c EmptyString => Ascii.eqb c sep
  | String _ r => endswith_sep r
  end.

(** [os.path.join(a, b)] of [posixpath]. *)
Definition path_join (a b : string) : string :=
  if startswith_sep b then b
  else if String.eqb a "" || endswith_sep a then a ++ b
  else a ++ "/" ++ b.

Fixpoint join_with (s : string) (l : list string) : string :=
  match l with
  | [] => ""
  | [x] => x
  | x :: r => x ++ s ++ join_with s r
  end.

Fixpoint str_in (s : string) (l : list string) : bool :=
  match l with
  | [] => false
  | x :: r => String.eqb x s || str_in s r
  end.

(** ** Effects: state, exceptions, [try] *)

(** A computation over a state [S] that returns or raises; the state
    survives a raise, as the effects of a Python block do. *)
Definition Eff (S A : Type) : Type := S -> outcome A * S.

Definition ret {S A} (a : A) : Eff S A := fun s => (Ok a, s).

Definition raise {S A} (e : exn) : Eff S A := fun s => (Raise e, s).

Definition bind {S A B} (m : Eff S A) (k : A -> Eff S B) : Eff S B :=
  fun s =>
    match m s with
    | (Ok a, s') => k a s'
    | (Raise e, s') => (Raise e, s')
    end.

Notation "'let!' x := m 'in' k" := (bind m (fun x => k))
  (at level 10, x name, m at level 100, k at level 200, only parsing) : py_scope.

(** A pure operation of the runtime, run inside a computation. *)
Definition lift {S A} (o : outcome A) : Eff S A := fun s => (o, s).

(** [try: body / except Exception as e: handler e] *)
Definition try_except {S A} (body : Eff S A) (handler : exn -> Eff S A) : Eff S A :=
  fun s =>
    match body s with
    | (Ok a, s') => (Ok a, s')
    | (Raise e, s') => handler e s'
    end.

(** [try: body / finally: final]: [final] runs whatever [body] did, a
    [return] included, and its own exception replaces the result. *)
Definition try_finally {S A} (body : Eff S A) (final : Eff S unit) : Eff S A :=
  fun s =>
    match body s with
    | (r, s1) =>
        match final s1 with
        | (Ok _, s2) => (r, s2)
        | (Raise e, s2) => (Raise e, s2)
        end
    end.

(** ** The world of a request *)

Inductive event : Type :=
| Print (args : list value)
| Call (fn : string) (args : list value).

(** The file system (regular files by path, and directories), the clock
    as [int(time.time() * 1000)] reads it, and what the request has
    printed and called so far, oldest first. *)
Record World : Type := mkWorld {
  files : gmap string (list byte);
  dirs : gset string;
  now_ms : Z;
  trace : list event
}.

Definition set_files (f : gmap string (list byte)) (w : World) : World :=
  mkWorld f (dirs w) (now_ms w) (trace w).

Definition set_dirs (d : gset string) (w : World) : World :=
  mkWorld (files w) d (now_ms w) (trace w).

Definition emit (e : event) : Eff World unit :=
  fun w => (Ok tt, mkWorld (files w) (dirs w) (now_ms w) (trace w ++ [e])).

Definition print (args : list value) : Eff World unit := emit (Print args).

Inductive os_op : Type :=
| OpSave (path : string)
| OpRemove (path : string)
| OpMakedirs (path : string).

(** [backend/utils/gemini_service.py], as [app.py] uses it: four methods,
    each called with keyword arguments in the order given here. *)
Record GeminiService : Type := {
  generate_career_recommendations : value -> value -> value -> outcome value;
  suggest_skill_improvements : value -> value -> value -> outcome value;
  analyze_resume_gaps : value -> value -> value -> outcome value;
  generate_learning_path : value -> value -> value -> outcome value
}.

(** What [app.py] imports and reads at start-up. [os_error] says which
    operations of the operating system fail, and how (a read-only
    directory, a locked file, a full disk). *)
Record Env : Type := {
  UPLOAD_FOLDER : string;
  extract_resume_text : string -> gmap string (list byte) -> outcome value;
  clean_extracted_text : value -> outcome value;
  extract_basic_info : value -> value -> outcome value;
  gemini_service : option GeminiService;
  os_error : os_op -> option exn
}.

(** [werkzeug]'s [FileStorage]; [bool(file)] is [bool(file.filename)]. *)
Record FileStorage : Type := {
  filename : string;
  stream : list byte
}.

Record Request : Type := {
  request_files : gmap string FileStorage;
  request_form : gmap string string
}.

(** A view's result: the body handed to [jsonify] and the status code. *)
Definition Response : Type := (value * Z)%type.

Definition jsonify_error (msg : string) (status : Z) : Response :=
  (VDict [("error", VStr msg)], status).

Section Handlers.

Variable env : Env.

(** [file.save(path)] *)
Definition file_save (f : FileStorage) (path : string) : Eff World unit :=
  let! _ := emit (Call "file.save" [VStr path]) in
  match os_error env (OpSave path) with
  | Some e => raise e
  | None => fun w => (Ok tt, set_files (<[path := stream f]> (files w)) w)
  end.

Definition path_exists (path : string) (w : World) : bool :=
  bool_decide (is_Some (files w !! path)) || bool_decide (path ∈ dirs w).

Definition os_path_exists (path : string) : Eff World bool :=
  fun w => (Ok (path_exists path w), w).

(** [os.remove(path)] *)
Definition os_remove (path : string) : Eff World unit :=
  let! _ := emit (Call "os.remove" [VStr path]) in
  fun w =>
    match files w !! path with
    | None => (Raise (Exception ("No such file: '" ++ path ++ "'")), w)
    | Some _ =>
        match os_error env (OpRemove path) with
        | Some e => (Raise e, w)
        | None => (Ok tt, set_files (delete path (files w)) w)
        end
    end.

(** [os.makedirs(path)] *)
Definition os_makedirs (path : string) : Eff World unit :=
  let! _ := emit (Call "os.makedirs" [VStr path]) in
  let! there := os_path_exists path in
  if there then raise (Exception ("File exists: '" ++ path ++ "'"))
  else
    match os_error env (OpMakedirs path) with
    | Some e => raise e
    | None => fun w => (Ok tt, set_dirs ({[path]} ∪ dirs w) w)
    end.

(** [int(time.time() * 1000)] *)
Definition time_ms : Eff World Z := fun w => (Ok (now_ms w), w).

Definition call_extract_resume_text (path : string) : Eff World value :=
  let! _ := emit (Call "extract_resume_text" [VStr path]) in
  fun w => (extract_resume_text env path (files w), w).

Definition call_clean_extracted_text (text : value) : Eff World value :=
  let! _ := emit (Call "clean_extracted_text" [text]) in
  lift (clean_extracted_text env text).

Definition call_extract_basic_info (clean_text text : value) : Eff World value :=
  let! _ := emit (Call "extract_basic_info" [clean_text; text]) in
  lift (extract_basic_info env clean_text text).

(** The [finally] block the three handlers share:
    [if os.path.exists(file_path): try: os.remove(file_path) except ...: print(...)] *)
Definition cleanup (file_path : string) : Eff World unit :=
  let! there := os_path_exists file_path in
  if there then
    try_except (os_remove file_path)
      (fun e => print [VStr ("Warning: Could not remove file " ++ file_path ++ ": " ++ str_exn e)])
  else ret tt.

(** *** The recommendation block of [/process] *)

(** The block assigns into the local dict [ai_recommendations] as it goes,
    and what it has assigned survives the exception of a later call: the
    dict is a second component of the state. *)
Definition in_world {L A} (m : Eff World A) : Eff (World * L) A :=
  fun s =>
    match m (fst s) with
    | (r, w') => (r, (w', snd s))
    end.

Definition assign (k : string) (v : value) : Eff (World * dict) unit :=
  fun s => (Ok tt, (fst s, dict_set k v (snd s))).

Definition with_local {A} (init : dict) (body : Eff (World * dict) A) : Eff World dict :=
  fun w =>
    match body (w, init) with
    | (Ok _, s) => (Ok (snd s), fst s)
    | (Raise e, s) => (Raise e, fst s)
    end.

Definition gemini_call (fn : string) (f : value -> value -> value -> outcome value)
    (a b c : value) : Eff World value :=
  let! _ := emit (Call fn [a; b; c]) in
  lift (f a b c).

(** The character U+00A0, NO-BREAK SPACE. *)
Definition no_break_space : ascii := "160"%char.

(** The literal of line 108: between its two words stands a no-break
    space (the bytes C2 A0 of the source file), not the space of the
    literal of line 122. *)
Definition software_developer_nbsp : string :=
  String.append "Software" (String no_break_space "Developer").

(** [[role.get('title', '') for role in career_recs.get('recommended_roles', [])[:3]]
     if career_recs else [software_developer_nbsp]] *)
Definition target_roles (career_recs : value) : outcome value :=
  if truthy career_recs then
    let? roles := py_get career_recs "recommended_roles" (VList []) in
    let? first := py_slice_to 3 roles in
    let? items := py_iter first in
    let? titles := omap (fun role => py_get role "title" (VStr "")) items in
    Ok (VList titles)
  else Ok (VList [VStr software_developer_nbsp]).

(** [career_recs.get('recommended_roles', [{}])[0].get('title', 'Software Developer')
     if career_recs else 'Software Developer'] *)
Definition top_role (career_recs : value) : outcome value :=
  if truthy career_recs then
    let? roles := py_get career_recs "recommended_roles" (VList [VDict []]) in
    let? first := py_index0 roles in
    py_get first "title" (VStr "Software Developer")
  else Ok (VStr "Software Developer").

(** The body of the inner [try] (lines 97-130). *)
Definition ai_calls (g : GeminiService) (basic_info clean_text preferences : value)
    : Eff (World * dict) unit :=
  let! summary := lift (py_get basic_info "skills_summary" (VDict [])) in
  let! career_recs :=
    in_world (gemini_call "generate_career_recommendations"
                (generate_career_recommendations g) summary preferences (VStr "intermediate")) in
  let! _ := assign "career_recommendations" career_recs in
  let! skills := lift (py_get basic_info "skills" (VList [])) in
  let! roles := lift (target_roles career_recs) in
  let! skill_suggestions :=
    in_world (gemini_call "suggest_skill_improvements"
                (suggest_skill_improvements g) skills roles preferences) in
  let! _ := assign "skill_improvements" skill_suggestions in
  let! summary' := lift (py_get basic_info "skills_summary" (VDict [])) in
  let! resume_analysis :=
    in_world (gemini_call "analyze_resume_gaps"
                (analyze_resume_gaps g) summary' preferences clean_text) in
  let! _ := assign "resume_analysis" resume_analysis in
  let! role := lift (top_role career_recs) in
  let! skills' := lift (py_get basic_info "skills" (VList [])) in
  let! learning_path :=
    in_world (gemini_call "generate_learning_path"
                (generate_learning_path g) skills' role (VStr "balanced")) in
  let! _ := assign "learning_path" learning_path in
  in_world (print [VStr "AI recommendations generated successfully"]).

(** Lines 94-133: [ai_recommendations = {}], then the calls under
    [if gemini_service:], their exception recorded under ['error']. *)
Definition ai_insights (basic_info clean_text preferences : value) : Eff World dict :=
  match gemini_service env with
  | None => ret []
  | Some g =>
      with_local []
        (try_except (ai_calls g basic_info clean_text preferences)
           (fun e =>
              let! _ := in_world (print [VStr ("Error generating AI recommendations: " ++ str_exn e)]) in
              assign "error" (VStr (str_exn e))))
  end.

(** *** [/process] *)

(** The dict under ["extracted_info"] (lines 138-149), its entries
    evaluated in source order. *)
Definition extracted_info (clean_text basic_info : value) : outcome value :=
  let? text_length := py_len clean_text in
  let? email := py_get basic_info "email" VNone in
  let? detected_skills := py_get basic_info "skills" (VList []) in
  let? skills_by_category := py_get basic_info "skills_summary" (VDict []) in
  let? skills := py_get basic_info "skills" (VList []) in
  let? total_skills_found := py_len skills in
  let? exp_kw := py_get basic_info "experience_keywords" (VList []) in
  let? n_exp := py_len exp_kw in
  let? edu_kw := py_get basic_info "education_keywords" (VList []) in
  let? n_edu := py_len edu_kw in
  let? experience_entries := py_get basic_info "experience_entries" (VList []) in
  let? project_entries := py_get basic_info "project_entries" (VList []) in
  let? experience_keywords := py_get basic_info "experience_keywords" (VList []) in
  Ok (VDict
        [("text_length", VInt text_length);
         ("email", email);
         ("detected_skills", detected_skills);
         ("skills_by_category", skills_by_category);
         ("total_skills_found", VInt total_skills_found);
         ("has_experience_keywords", VBool (0 <? n_exp)%Z);
         ("has_education_keywords", VBool (0 <? n_edu)%Z);
         ("experience_entries", experience_entries);
         ("project_entries", project_entries);
         ("experience_keywords", experience_keywords)]).

Definition process_response (info industries goals location : value) (ai : dict) : value :=
  VDict
    [("summary", VStr "Resume processed successfully with AI analysis");
     ("extracted_info", info);
     ("preferences",
       VDict [("industries", industries); ("goals", goals); ("location", location)]);
     ("ai_insights", VDict ai)].

(** The dict [preferences] handed to the service (lines 87-91). *)
Definition preferences_of (industries goals location : value) : value :=
  VDict [("industries", py_or industries (VStr "Not specified"));
         ("goals", py_or goals (VStr "Not specified"));
         ("location", py_or location (VStr "Not specified"))].

(** The body of the [try] of [process_resume] (lines 67-157): [inl] is a
    [return] from inside the block, [inr] the local [response] with which
    control leaves it. *)
Definition process_try (industries goals location : value) (file_path : string)
    : Eff World (Response + value) :=
  let! extracted_text := call_extract_resume_text file_path in
  if negb (truthy extracted_text) then
    ret (inl (jsonify_error "Could not extract text from resume" 400))
  else
    let! clean_text := call_clean_extracted_text extracted_text in
    let! basic_info := call_extract_basic_info clean_text extracted_text in
    let! _ := print [VStr "Industries:"; industries] in
    let! _ := print [VStr "Goals:"; goals] in
    let! _ := print [VStr "Location:"; location] in
    let! n := lift (py_len clean_text) in
    let! _ := print [VStr "Extracted resume length:"; VInt n] in
    let! skills := lift (py_get basic_info "skills" (VList [])) in
    let! n_skills := lift (py_len skills) in
    let! _ := print [VStr "Skills found:"; VInt n_skills] in
    let! summary := lift (py_get basic_info "skills_summary" (VDict [])) in
    let! _ := print [VStr "Skills by category:"; summary] in
    let preferences := preferences_of industries goals location in
    let! ai_recommendations := ai_insights basic_info clean_text preferences in
    let! info := lift (extracted_info clean_text basic_info) in
    ret (inr (process_response info industries goals location ai_recommendations)).

(** [except Exception as e] of [process_resume] (lines 159-161). *)
Definition process_except (e : exn) : Eff World (Response + value) :=
  let! _ := print [VStr ("Error processing resume: " ++ str_exn e)] in
  ret (inl (jsonify_error ("Error processing resume: " ++ str_exn e) 500)).

(** [if not file]: no part named ['resume'], or one without a filename. *)
Definition uploaded (file : option FileStorage) : option FileStorage :=
  match file with
  | Some f => if String.eqb (filename f) "" then None else Some f
  | None => None
  end.

Definition process_resume (request : Request) : Eff World Response :=
  let file := request_files request !! "resume" in
  let industries := of_option (request_form request !! "industries") in
  let goals := of_option (request_form request !! "goals") in
  let location := of_option (request_form request !! "location") in
  match uploaded file with
  | None => ret (jsonify_error "No resume uploaded" 400)
  | Some file =>
      let file_path := path_join (UPLOAD_FOLDER env) (filename file) in
      let! _ := file_save file file_path in
      let! r :=
        try_finally
          (try_except (process_try industries goals location file_path) process_except)
          (cleanup file_path) in
      match r with
      | inl response => ret response
      | inr response => ret (response, 200%Z)
      end
  end.

(** *** [/extract-skills] *)

(** The body of the [try] of [extract_skills] (lines 193-209); the block
    has no [return], so it always leaves with the local [response]. *)
Definition skills_try (file_path : string) : Eff World value :=
  let! extracted_text := call_extract_resume_text file_path in
  let! clean_text := call_clean_extracted_text extracted_text in
  let! basic_info := call_extract_basic_info clean_text extracted_text in
  let! skills := lift (py_get basic_info "skills" (VList [])) in
  let! skills_by_category := lift (py_get basic_info "skills_summary" (VDict [])) in
  let! skills' := lift (py_get basic_info "skills" (VList [])) in
  let! total_skills_found := lift (py_len skills') in
  let! email := lift (py_get basic_info "email" (VStr "")) in
  let! detected_skills := lift (py_get basic_info "skills" (VList [])) in
  ret (VDict
         [("skills", skills);
          ("skills_by_category", skills_by_category);
          ("total_skills_found", VInt total_skills_found);
          ("extracted_info",
            VDict [("email", email); ("detected_skills", detected_skills)])]).

(** [except Exception as e] of [extract_skills] (lines 211-213). *)
Definition skills_except (e : exn) : Eff World (Response + value) :=
  let! _ := print [VStr ("Error extracting skills: " ++ str_exn e)] in
  ret (inl (jsonify_error ("Error extracting skills: " ++ str_exn e) 500)).

(** [f"resume-{int(time.time() * 1000)}.pdf"] *)
Definition skills_filename (ms : Z) : string := "resume-" ++ str_int ms ++ ".pdf".

Definition extract_skills (request : Request) : Eff World Response :=
  let file := request_files request !! "resume" in
  match uploaded file with
  | None => ret (jsonify_error "No resume file provided" 400)
  | Some file =>
      let! there := os_path_exists (UPLOAD_FOLDER env) in
      let! _ := (if there then ret tt else os_makedirs (UPLOAD_FOLDER env)) in
      let! ms := time_ms in
      let filename := skills_filename ms in
      let file_path := path_join (UPLOAD_FOLDER env) filename in
      let! _ := file_save file file_path in
      let! r :=
        try_finally
          (try_except
             (let! response := skills_try file_path in ret (inr response))
             skills_except)
          (cleanup file_path) in
      match r with
      | inl response => ret response
      | inr response => ret (response, 200%Z)
      end
  end.

(** *** [/extract-resume] *)

Definition allowed_extensions : list string := [".pdf"; ".docx"; ".doc"].

(** [os.path.splitext(file.filename)[1].lower()] *)
Definition file_extension_of (name : string) : string := lower (snd (splitext name)).

(** [list(v.keys())] *)
Definition py_keys (v : value) : outcome value :=
  match v with
  | VDict d => Ok (VList (map VStr (dict_keys d)))
  | _ => Raise (Exception ("'" ++ type_name v ++ "' object has no attribute 'keys'"))
  end.

(** The dict [response] of [extract_resume] (lines 259-283). *)
Definition resume_response (name file_extension : string) (clean_text basic_info : value)
    : outcome value :=
  let? text_length := py_len clean_text in
  let? email := py_get basic_info "email" VNone in
  let? skills := py_get basic_info "skills" (VList []) in
  let? skills_by_category := py_get basic_info "skills_summary" (VDict []) in
  let? experience_keywords := py_get basic_info "experience_keywords" (VList []) in
  let? education_keywords := py_get basic_info "education_keywords" (VList []) in
  let? email' := py_get basic_info "email" VNone in
  let? skills' := py_get basic_info "skills" (VList []) in
  let? skills_detected := py_len skills' in
  let? text_length' := py_len clean_text in
  let? summary := py_get basic_info "skills_summary" (VDict []) in
  let? keys := py_keys summary in
  let? top := py_slice_to 3 keys in
  let? skills'' := py_get basic_info "skills" (VList []) in
  let? n_skills := py_len skills'' in
  Ok (VDict
        [("success", VBool true);
         ("file_info",
           VDict [("filename", VStr name);
                  ("file_type", VStr file_extension);
                  ("text_length", VInt text_length)]);
         ("extracted_content",
           VDict [("full_text", clean_text);
                  ("basic_info",
                    VDict [("email", email);
                           ("skills", skills);
                           ("skills_by_category", skills_by_category);
                           ("experience_keywords", experience_keywords);
                           ("education_keywords", education_keywords)])]);
         ("analysis",
           VDict [("has_contact_info", VBool (truthy email'));
                  ("skills_detected", VInt skills_detected);
                  ("appears_complete", VBool (200 <? text_length')%Z);
                  ("top_skill_categories", top);
                  ("has_technical_background", VBool (5 <? n_skills)%Z)])]).

Definition unsupported_format : Response :=
  jsonify_error ("Unsupported file format. Allowed: " ++ join_with ", " allowed_extensions) 400.

Definition no_text : Response :=
  jsonify_error
    "Could not extract text from resume. The file might be corrupted or contain only images."
    400.

(** The body of the [try] of [extract_resume] (lines 247-285): every path
    through it ends in a [return]. *)
Definition resume_try (name file_extension file_path : string) : Eff World Response :=
  let! extracted_text := call_extract_resume_text file_path in
  if negb (truthy extracted_text) then ret no_text
  else
    let! clean_text := call_clean_extracted_text extracted_text in
    let! basic_info := call_extract_basic_info clean_text extracted_text in
    let! response := lift (resume_response name file_extension clean_text basic_info) in
    ret (response, 200%Z).

(** [except Exception as e] of [extract_resume] (lines 287-289). *)
Definition resume_except (e : exn) : Eff World Response :=
  let! _ := print [VStr ("Error extracting resume: " ++ str_exn e)] in
  ret (jsonify_error ("Error extracting resume: " ++ str_exn e) 500).

Definition extract_resume (request : Request) : Eff World Response :=
  let file := request_files request !! "resume" in
  match uploaded file with
  | None => ret (jsonify_error "No resume uploaded" 400)
  | Some file =>
      let file_extension := file_extension_of (filename file) in
      if negb (str_in file_extension allowed_extensions) then ret unsupported_format
      else
        let file_path := path_join (UPLOAD_FOLDER env) (filename file) in
        let! _ := file_save file file_path in
        try_finally
          (try_except (resume_try (filename file) file_extension file_path) resume_except)
          (cleanup file_path)
  end.

End Handlers.

(** ** A cleaner and test doubles *)

Definition is_space (c : ascii) : bool :=
  let n := nat_of_ascii c in
  ((n =? 32) || ((9 <=? n) && (n <=? 13)))%nat.

Definition is_control (c : ascii) : bool :=
  let n := nat_of_ascii c in
  ((n <? 32) || (n =? 127))%nat && negb (is_space c).

Fixpoint strip_controls (s : string) : string :=
  match s with
  | EmptyString => EmptyString
  | String c r => if is_control c then strip_controls r else String c (strip_controls r)
  end.

(** [started]: some text has been produced; [gap]: whitespace has been
    seen since. *)
Fixpoint collapse (started gap : bool) (s : string) : string :=
  match s with
  | EmptyString => EmptyString
  | String c r =>
      if is_space c then collapse started started r
      else if gap then String " "%char (String c (collapse true false r))
      else String c (collapse true false r)
  end.

(** Modelled from the spec: [utils/resume_extractor.clean_extracted_text]
    is not among the sources; section 4.3 gives its contract - strip the
    control characters, collapse every run of whitespace (newlines too) to
    one space, trim both ends; total, the empty string at worst. *)
Definition clean (text : string) : string := collapse false false (strip_controls text).

Module Double.

(** A reader that hands back the bytes of the file as text. *)
Definition read_text (path : string) (fs : gmap string (list byte)) : outcome value :=
  match fs !! path with
  | Some bytes => Ok (VStr (string_of_list_byte bytes))
  | None => Raise (Exception ("No such file: '" ++ path ++ "'"))
  end.

Definition clean_value (text : value) : outcome value :=
  match text with
  | VStr s => Ok (VStr (clean s))
  | _ => Raise (Exception ("expected str, got " ++ type_name text))
  end.

(** A profile with one skill and no email: a partial success. *)
Definition one_skill (clean_text text : value) : outcome value :=
  Ok (VDict
        [("email", VNone);
         ("skills", VList [VStr "python"]);
         ("skills_summary", VDict [("programming", VList [VStr "python"])]);
         ("experience_keywords", VList [VStr "experience"; VStr "experience"]);
         ("education_keywords", VList [])]).

Definition no_os_error (op : os_op) : option exn := None.

(** Every removal fails, as it does for a file another process holds. *)
Definition locked (op : os_op) : option exn :=
  match op with
  | OpRemove _ => Some (Exception "Permission denied")
  | _ => None
  end.

(** A service whose every call fails, as it does without network. *)
Definition offline : GeminiService :=
  {| generate_career_recommendations := fun _ _ _ => Raise (Exception "503 unavailable");
     suggest_skill_improvements := fun _ _ _ => Raise (Exception "503 unavailable");
     analyze_resume_gaps := fun _ _ _ => Raise (Exception "503 unavailable");
     generate_learning_path := fun _ _ _ => Raise (Exception "503 unavailable") |}.

Definition env (g : option GeminiService) (err : os_op -> option exn) : Env :=
  {| UPLOAD_FOLDER := "uploads";
     extract_resume_text := read_text;
     clean_extracted_text := clean_value;
     extract_basic_info := one_skill;
     gemini_service := g;
     os_error := err |}.

(** A reader that cannot parse anything. *)
Definition broken (g : option GeminiService) : Env :=
  {| UPLOAD_FOLDER := "uploads";
     extract_resume_text := fun _ _ => Raise (Exception "EOF marker not found");
     clean_extracted_text := clean_value;
     extract_basic_info := one_skill;
     gemini_service := g;
     os_error := no_os_error |}.

Definition world : World :=
  {| files := ∅; dirs := {["uploads"]}; now_ms := 1700000000123; trace := [] |}.

Definition upload (name : string) (content : string) : Request :=
  {| request_files := {["resume" := {| filename := name; stream := list_byte_of_string content |}]};
     request_form := {["goals" := "backend engineer"]} |}.

End Double.

(** ** Vocabulary of the statements *)

(** [w] with the events [new] appended and nothing else changed. *)
Definition extend (w : World) (new : list event) : World :=
  mkWorld (files w) (dirs w) (now_ms w) (trace w ++ new).

(** A computation that leaves the file system and the clock alone and
    only appends events that satisfy [P]; [get] finds the world in the
    state. *)
Definition appends {S A} (get : S -> World) (P : event -> Prop) (m : Eff S A) : Prop :=
  forall s, exists new, get (snd (m s)) = extend (get s) new /\ Forall P new.

(** A computation that returns, whatever the state. *)
Definition total {S A} (m : Eff S A) : Prop :=
  forall s, exists a, fst (m s) = Ok a.

Definition is_text (v : value) : bool :=
  match v with
  | VStr _ => true
  | _ => false
  end.

Definition is_list (v : value) : bool :=
  match v with
  | VList _ => true
  | _ => false
  end.

(** [info.get(k, default)] for an [info] known to be a dict. *)
Definition field (info : value) (k : string) (default : value) : value :=
  match info with
  | VDict d => match dict_lookup k d with Some x => x | None => default end
  | _ => default
  end.

(** The shape of section 3's StructuredProfile: a dict whose skills and
    keyword hits, where present, are sequences. Every other field may be
    missing or [None]. *)
Definition is_profile (info : value) : bool :=
  match info with
  | VDict _ =>
      is_list (field info "skills" (VList []))
      && is_list (field info "experience_keywords" (VList []))
      && is_list (field info "education_keywords" (VList []))
  | _ => false
  end.

(** The nine fields section 6 lists for the serialized profile. *)
Definition profile_fields : list string :=
  ["email"; "detected_skills"; "skills_by_category"; "total_skills_found";
   "has_experience_keywords"; "has_education_keywords"; "experience_entries";
   "project_entries"; "experience_keywords"].

Definition keys_of (v : value) : list string :=
  match v with
  | VDict d => dict_keys d
  | _ => []
  end.

(** An event that, if it is a call of the text extractor, passes it
    [path]. *)
Definition reads_only (path : string) (ev : event) : Prop :=
  forall args, ev = Call "extract_resume_text" args -> args = [VStr path].

(** The world once [file.save] has stored [f] under [path]. *)
Definition stored (path : string) (f : FileStorage) (w : World) : World :=
  set_files (<[path := stream f]> (files w)) (extend w [Call "file.save" [VStr path]]).

(** The path under which [extract_skills] stores the upload at [w]. *)
Definition skills_path (env : Env) (w : World) : string :=
  path_join (UPLOAD_FOLDER env) (skills_filename (now_ms w)).

(** [os.path.exists(UPLOAD_FOLDER)] holds, or [os.makedirs] can create it. *)
Definition folder_ready (env : Env) (w : World) : Prop :=
  path_exists (UPLOAD_FOLDER env) w = true
  \/ os_error env (OpMakedirs (UPLOAD_FOLDER env)) = None.

(** [extract_skills] creates the upload folder when it is missing; [w1] is
    a world in which the upload may then be stored: [w] with more
    directories and more events, none of them a call of the extractor on
    another path. *)
Definition skills_ready (env : Env) (w w1 : World) : Prop :=
  exists new, w1 = set_dirs (dirs w1) (extend w new)
    /\ Forall (reads_only (skills_path env w)) new.

(** The message of the warning the [finally] block prints. *)
Definition remove_warning (file_path : string) (e : exn) : event :=
  Print [VStr ("Warning: Could not remove file " ++ file_path ++ ": " ++ str_exn e)].

(** The path under which the other two handlers store the upload [f]. *)
Definition upload_path (env : Env) (f : FileStorage) : string :=
  path_join (UPLOAD_FOLDER env) (filename f).

(** The values of the three form fields, as the handler reads them. *)
Definition form_field (request : Request) (k : string) : value :=
  of_option (request_form request !! k).

(** What a handler leaves behind once it has stored the upload under
    [path] in [w1]: its events are the extractor's call on [path], then
    events that call the extractor on no other path, a removal of [path]
    among them; the file is gone unless [os.remove] failed, and then the
    warning is among the events. *)
Definition cleaned_up (env : Env) (path : string) (f : FileStorage) (w1 final : World) : Prop :=
  exists tl rest,
    trace final =
      (trace w1 ++ Call "file.save" [VStr path]
         :: Call "extract_resume_text" [VStr path] :: tl ++ rest)%list
    /\ Forall (reads_only path) (tl ++ rest)%list
    /\ Call "os.remove" [VStr path] ∈ rest
    /\ match os_error env (OpRemove path) with
       | None => files final !! path = None
       | Some e => files final !! path = Some (stream f) /\ remove_warning path e ∈ rest
       end.

(** One of the three calls of the core raises [e]: the reader, the
    cleaner or the info extractor, each reached only if the calls before
    it returned. [guarded] says whether the handler tests the extracted
    text before it goes on ([process_resume] and [extract_resume] do). *)
Inductive core_raises (env : Env) (path : string) (fs : gmap string (list byte))
    (guarded : bool) (e : exn) : Prop :=
| reader_raises :
    extract_resume_text env path fs = Raise e ->
    core_raises env path fs guarded e
| cleaner_raises raw :
    extract_resume_text env path fs = Ok raw ->
    (guarded = true -> truthy raw = true) ->
    clean_extracted_text env raw = Raise e ->
    core_raises env path fs guarded e
| analysis_raises raw clean_text :
    extract_resume_text env path fs = Ok raw ->
    (guarded = true -> truthy raw = true) ->
    clean_extracted_text env raw = Ok clean_text ->
    extract_basic_info env clean_text raw = Raise e ->
    core_raises env path fs guarded e.

(** [len(v)] where it is defined. *)
Definition count (v : value) : Z :=
  match py_len v with
  | Ok n => n
  | Raise _ => 0%Z
  end.

(** The dict under ["extracted_info"], read off the cleaned text and the
    profile: what [extracted_info] returns when it returns. *)
Definition profile_view (clean_text basic_info : value) : value :=
  VDict
    [("text_length", VInt (count clean_text));
     ("email", field basic_info "email" VNone);
     ("detected_skills", field basic_info "skills" (VList []));
     ("skills_by_category", field basic_info "skills_summary" (VDict []));
     ("total_skills_found", VInt (count (field basic_info "skills" (VList []))));
     ("has_experience_keywords",
       VBool (truthy (field basic_info "experience_keywords" (VList []))));
     ("has_education_keywords",
       VBool (truthy (field basic_info "education_keywords" (VList []))));
     ("experience_entries", field basic_info "experience_entries" (VList []));
     ("project_entries", field basic_info "project_entries" (VList []));
     ("experience_keywords", field basic_info "experience_keywords" (VList []))].

(** What [ai] holds after the recommendation block has run at [w]: nothing
    without a service; what the calls assigned when they all returned;
    and, when one of them raised [e], what was assigned until then plus
    the message of [e] under ['error']. *)
Definition ai_recorded (env : Env) (basic_info clean_text preferences : value)
    (w : World) (ai : dict) : Prop :=
  match gemini_service env with
  | None => ai = []
  | Some g =>
      match ai_calls g basic_info clean_text preferences (w, []) with
      | (Ok _, s) => ai = snd s
      | (Raise e, s) =>
          ai = dict_set "error" (VStr (str_exn e)) (snd s)
          /\ dict_lookup "error" ai = Some (VStr (str_exn e))
      end
  end.

(** [c not in s] *)
Fixpoint no_char (c : ascii) (s : string) : bool :=
  match s with
  | EmptyString => true
  | String a r => negb (Ascii.eqb a c) && no_char c r
  end.

(** ** The [/ai/...] endpoints and start-up *)

(** A request with a JSON body: [request.get_json()] gives the parsed
    body, [None], or raises (a body that is not JSON). *)
Record JsonRequest : Type := {
  get_json : outcome value
}.

(** What the process reads of its environment: [os.getenv]. *)
Record Process : Type := {
  getenv : string -> option string
}.

(** Lines 24-46: the configuration check and the construction of the
    service. [check_config] is [config.check_config()] and [new_service]
    is [GeminiService()]; the result is the module-level
    [gemini_service]. *)
Definition startup (process : Process) (check_config : outcome value)
    (new_service : outcome GeminiService) : Eff World (option GeminiService) :=
  let! _ := print [VStr "Checking configuration..."] in
  let! config_valid := lift check_config in
  let gemini_key_present := truthy (of_option (getenv process "GEMINI_API_KEY")) in
  let! _ := print [VStr "GEMINI_API_KEY present in environment: "; VBool gemini_key_present] in
  let! _ :=
    (if negb gemini_key_present then
       let! _ := print [VStr "WARNING: GEMINI_API_KEY not found. AI features will be disabled."] in
       print [VStr "Please set GEMINI_API_KEY environment variable to enable AI recommendations."]
     else ret tt) in
  try_except
    (if truthy config_valid && gemini_key_present then
       let! service := lift new_service in
       let! _ := print [VStr "Gemini AI service initialized successfully"] in
       ret (Some service)
     else
       let! _ := print [VStr "Configuration issues detected. AI features may not work properly."] in
       ret None)
    (fun e =>
       let! _ := print [VStr ("Warning: Gemini AI service failed to initialize: " ++ str_exn e)] in
       let! _ := print [VStr "AI-powered features will be disabled"] in
       ret None).

Module Ai.

Section Views.

Variable env : Env.
Variable process : Process.

Definition unavailable : Response := jsonify_error "AI service not available" 503.

Definition no_data : Response := jsonify_error "No data provided" 400.

(** [/ai/career-recommendations] (lines 299-336). The three [data.get]
    stand before the [try]. The parts of the formatted message are kept
    apart in the print event. *)
Definition get_career_recommendations (request : JsonRequest) : Eff World Response :=
  match gemini_service env with
  | None => ret unavailable
  | Some service =>
      let! data := lift (get_json request) in
      if negb (truthy data) then ret no_data
      else
        let! skills_by_category := lift (py_get data "skills_by_category" (VDict [])) in
        let! preferences := lift (py_get data "preferences" (VDict [])) in
        let! experience_level := lift (py_get data "experience_level" (VStr "intermediate")) in
        try_except
          (let! _ := print [VStr "Received request - Skills: "; skills_by_category;
                            VStr ", Preferences: "; preferences] in
           let! recommendations :=
             gemini_call "generate_career_recommendations"
               (generate_career_recommendations service)
               skills_by_category preferences experience_level in
           let! _ := print [VStr "Generated recommendations successfully"] in
           ret (VDict [("success", VBool true); ("recommendations", recommendations)], 200%Z))
          (fun e =>
             let! _ := print [VStr ("ERROR in career recommendations: " ++ str_exn e)] in
             let! _ := emit (Call "traceback.print_exc" []) in
             ret (jsonify_error ("Error generating recommendations: " ++ str_exn e) 500))
  end.

(** [/ai/skill-analysis] (lines 338-368) *)
Definition analyze_skills (request : JsonRequest) : Eff World Response :=
  match gemini_service env with
  | None => ret unavailable
  | Some service =>
      let! data := lift (get_json request) in
      if negb (truthy data) then ret no_data
      else
        let! current_skills := lift (py_get data "current_skills" (VList [])) in
        let! target_roles := lift (py_get data "target_roles" (VList [])) in
        let! preferences := lift (py_get data "preferences" (VDict [])) in
        try_except
          (let! skill_analysis :=
             gemini_call "suggest_skill_improvements" (suggest_skill_improvements service)
               current_skills target_roles preferences in
           ret (VDict [("success", VBool true); ("analysis", skill_analysis)], 200%Z))
          (fun e => ret (jsonify_error ("Error analyzing skills: " ++ str_exn e) 500))
  end.

(** [/ai/resume-analysis] (lines 370-403) *)
Definition analyze_resume_ai (request : JsonRequest) : Eff World Response :=
  match gemini_service env with
  | None => ret unavailable
  | Some service =>
      let! data := lift (get_json request) in
      if negb (truthy data) then ret no_data
      else
        let! skills_by_category := lift (py_get data "skills_by_category" (VDict [])) in
        let! preferences := lift (py_get data "preferences" (VDict [])) in
        let! resume_text := lift (py_get data "resume_text" (VStr "")) in
        if negb (truthy resume_text) then ret (jsonify_error "Resume text is required" 400)
        else
          try_except
            (let! analysis :=
               gemini_call "analyze_resume_gaps" (analyze_resume_gaps service)
                 skills_by_category preferences resume_text in
             ret (VDict [("success", VBool true); ("analysis", analysis)], 200%Z))
            (fun e => ret (jsonify_error ("Error analyzing resume: " ++ str_exn e) 500))
  end.

(** [/ai/learning-path] (lines 405-438) *)
Definition generate_learning_path (request : JsonRequest) : Eff World Response :=
  match gemini_service env with
  | None => ret unavailable
  | Some service =>
      let! data := lift (get_json request) in
      if negb (truthy data) then ret no_data
      else
        let! current_skills := lift (py_get data "current_skills" (VList [])) in
        let! target_role := lift (py_get data "target_role" (VStr "")) in
        let! learning_preference := lift (py_get data "learning_preference" (VStr "balanced")) in
        if negb (truthy target_role) then ret (jsonify_error "Target role is required" 400)
        else
          try_except
            (let! learning_path :=
               gemini_call "generate_learning_path" (generate_learning_path service)
                 current_skills target_role learning_preference in
             ret (VDict [("success", VBool true); ("learning_path", learning_path)], 200%Z))
            (fun e => ret (jsonify_error ("Error generating learning path: " ++ str_exn e) 500))
  end.

(** [bool(os.getenv('GEMINI_API_KEY'))] *)
Definition api_configured : value :=
  VBool (truthy (of_option (getenv process "GEMINI_API_KEY"))).

(** [/ai/status] (lines 440-470) *)
Definition ai_service_status : Eff World Response :=
  match gemini_service env with
  | None =>
      ret (VDict [("available", VBool false); ("message", VStr "AI service not initialized")],
           200%Z)
  | Some service =>
      try_except
        (let! test_response :=
           gemini_call "generate_career_recommendations"
             (generate_career_recommendations service)
             (VDict [("technical", VList [VStr "python"])])
             (VDict [("industries", VStr "technology")])
             (VStr "intermediate") in
         ret (VDict [("available", VBool true);
                     ("message", VStr "AI service is working");
                     ("api_configured", api_configured)], 200%Z))
        (fun e =>
           ret (VDict [("available", VBool false);
                       ("message", VStr ("AI service error: " ++ str_exn e));
                       ("api_configured", api_configured)], 200%Z))
  end.

End Views.

End Ai.

(** ** More vocabulary *)

(** The four [POST] routes under [/ai], each with its view, the method of
    the service it calls, the key under which the answer carries the
    result and the head of its error message. *)
Record Route : Type := {
  route_url : string;
  route_view : JsonRequest -> Eff World Response;
  route_method : string;
  route_run : GeminiService -> value -> value -> value -> outcome value;
  route_key : string;
  route_failure : string
}.

Definition career_recommendations_route (env : Env) : Route :=
  {| route_url := "/ai/career-recommendations";
     route_view := Ai.get_career_recommendations env;
     route_method := "generate_career_recommendations";
     route_run := generate_career_recommendations;
     route_key := "recommendations";
     route_failure := "Error generating recommendations: " |}.

Definition skill_analysis_route (env : Env) : Route :=
  {| route_url := "/ai/skill-analysis";
     route_view := Ai.analyze_skills env;
     route_method := "suggest_skill_improvements";
     route_run := suggest_skill_improvements;
     route_key := "analysis";
     route_failure := "Error analyzing skills: " |}.

Definition resume_analysis_route (env : Env) : Route :=
  {| route_url := "/ai/resume-analysis";
     route_view := Ai.analyze_resume_ai env;
     route_method := "analyze_resume_gaps";
     route_run := analyze_resume_gaps;
     route_key := "analysis";
     route_failure := "Error analyzing resume: " |}.

Definition learning_path_route (env : Env) : Route :=
  {| route_url := "/ai/learning-path";
     route_view := Ai.generate_learning_path env;
     route_method := "generate_learning_path";
     route_run := generate_learning_path;
     route_key := "learning_path";
     route_failure := "Error generating learning path: " |}.

Definition routes (env : Env) : list Route :=
  [career_recommendations_route env; skill_analysis_route env;
   resume_analysis_route env; learning_path_route env].

(** [response[k1][k2]] in a response made of nested dicts; [None] where
    there is no such entry. *)
Definition entry (response : value) (k1 k2 : string) : value :=
  field (field response k1 VNone) k2 VNone.

(** An event that is a call of the recommendation service. *)
Definition is_service_call (ev : event) : bool :=
  match ev with
  | Call fn _ =>
      str_in fn ["generate_career_recommendations"; "suggest_skill_improvements";
                 "analyze_resume_gaps"; "generate_learning_path"]
  | Print _ => false
  end.

(** The calls of the service among some events, in order. *)
Definition service_calls (events : list event) : list event := filter is_service_call events.

Definition is_dict (v : value) : bool :=
  match v with
  | VDict _ => true
  | _ => false
  end.

(** [p.startswith(prefix)] *)
Fixpoint startswith (prefix p : string) : bool :=
  match prefix, p with
  | EmptyString, _ => true
  | String a r, String b s => Ascii.eqb a b && startswith r s
  | String _ _, EmptyString => false
  end.

(** The two calls with which a handler asks for a change of the file
    system. *)
Definition is_file_change (fn : string) : bool := str_in fn ["file.save"; "os.remove"].

(** An event that, if it is a call of [file.save] or of [os.remove],
    passes it [path]. *)
Definition writes_only (path : string) (ev : event) : Prop :=
  forall fn args, ev = Call fn args -> is_file_change fn = true -> args = [VStr path].

(** A computation all of whose events satisfy [P], whatever else it does
    to the world and however it ends. *)
Definition logs {A} (P : event -> Prop) (m : Eff World A) : Prop :=
  forall w, exists new, trace (snd (m w)) = (trace w ++ new)%list /\ Forall P new.

Module Fixture.

(** A disk on which nothing can be written. *)
Definition read_only (op : os_op) : option exn :=
  match op with
  | OpSave _ => Some (Exception "Read-only file system")
  | _ => None
  end.

(** A service that answers every call. *)
Definition online : GeminiService :=
  {| generate_career_recommendations := fun _ _ _ =>
       Ok (VDict [("recommended_roles",
                    VList [VDict [("title", VStr "Backend Developer")];
                           VDict [("title", VStr "Data Engineer")]])]);
     suggest_skill_improvements := fun _ roles _ => Ok (VDict [("for", roles)]);
     analyze_resume_gaps := fun _ _ _ => Ok (VDict [("gaps", VList [])]);
     generate_learning_path := fun _ role _ => Ok (VDict [("towards", role)]) |}.

(** A service that recommends no role at all. *)
Definition no_roles : GeminiService :=
  {| generate_career_recommendations := fun _ _ _ =>
       Ok (VDict [("recommended_roles", VList [])]);
     suggest_skill_improvements := fun _ roles _ => Ok (VDict [("for", roles)]);
     analyze_resume_gaps := fun _ _ _ => Ok (VDict [("gaps", VList [])]);
     generate_learning_path := fun _ role _ => Ok (VDict [("towards", role)]) |}.

(** A service whose recommendations are the empty object. *)
Definition no_recommendations : GeminiService :=
  {| generate_career_recommendations := fun _ _ _ => Ok (VDict []);
     suggest_skill_improvements := fun _ roles _ => Ok (VDict [("for", roles)]);
     analyze_resume_gaps := fun _ _ _ => Ok (VDict [("gaps", VList [])]);
     generate_learning_path := fun _ role _ => Ok (VDict [("towards", role)]) |}.

(** A service whose second method fails. *)
Definition flaky : GeminiService :=
  {| generate_career_recommendations := fun _ _ _ =>
       Ok (VDict [("recommended_roles", VList [VDict [("title", VStr "Backend Developer")]])]);
     suggest_skill_improvements := fun _ _ _ => Raise (Exception "429 quota exceeded");
     analyze_resume_gaps := fun _ _ _ => Ok (VDict [("gaps", VList [])]);
     generate_learning_path := fun _ role _ => Ok (VDict [("towards", role)]) |}.

Definition body (data : value) : JsonRequest := {| get_json := Ok data |}.

Definition with_key : Process :=
  {| getenv := fun k => if String.eqb k "GEMINI_API_KEY" then Some "secret" else None |}.

Definition without_key : Process := {| getenv := fun _ => None |}.

(** A world that already holds a file outside the upload folder. *)
Definition world : World :=
  {| files := {["/srv/app/config.pdf" := list_byte_of_string "settings"]};
     dirs := {["uploads"]};
     now_ms := 1700000000123;
     trace := [] |}.

End Fixture.

(** ** The effect combinators *)

Section Combinators.

Context {S A B : Type}.

Lemma bind_ok (m : Eff S A) (k : A -> Eff S B) s a s' :
  m s = (Ok a, s') -> bind m k s = k a s'.
Proof. intros H. unfold bind. now rewrite H. Qed.

Lemma bind_raise (m : Eff S A) (k : A -> Eff S B) s e s' :
  m s = (Raise e, s') -> bind m k s = (Raise e, s').
Proof. intros H. unfold bind. now rewrite H. Qed.

(** A [try] whose handler returns cannot raise. *)
Lemma try_except_total (body : Eff S A) (handler : exn -> Eff S A) :
  (forall e, total (handler e)) -> total (try_except body handler).
Proof.
  intros Hh s. unfold try_except.
  destruct (body s) as [[a | e] s1]; cbn.
  - now exists a.
  - apply Hh.
Qed.

Lemma try_finally_total (body : Eff S A) (final : Eff S unit) :
  total body -> total final -> total (try_finally body final).
Proof.
  intros Hb Hf s. unfold try_finally.
  destruct (Hb s) as [a Ha]. destruct (body s) as [r s1]. cbn in Ha. subst r.
  destruct (Hf s1) as [u Hu]. destruct (final s1) as [r2 s2]. cbn in Hu. subst r2.
  now exists a.
Qed.

(** When [final] returns, the [try] statement's result is its body's. *)
Lemma try_finally_fst (body : Eff S A) (final : Eff S unit) s :
  total final -> fst (try_finally body final s) = fst (body s).
Proof.
  intros Hf. unfold try_finally. destruct (body s) as [r s1].
  destruct (Hf s1) as [u Hu]. destruct (final s1) as [r2 s2]. cbn in Hu. now subst r2.
Qed.

End Combinators.

(** ** Computations that only append to the trace *)

Lemma extend_nil w : extend w [] = w.
Proof. destruct w. unfold extend. cbn. now rewrite app_nil_r. Qed.

Lemma extend_extend w l1 l2 : extend (extend w l1) l2 = extend w (l1 ++ l2)%list.
Proof. unfold extend. cbn. now rewrite app_assoc. Qed.

Section Appends.

Context {S : Type} (get : S -> World) (P : event -> Prop).

Lemma appends_ret {A} (a : A) : appends get P (ret a).
Proof. intros s. exists []. cbn. now rewrite extend_nil. Qed.

Lemma appends_raise {A} e : appends get P (@raise S A e).
Proof. intros s. exists []. cbn. now rewrite extend_nil. Qed.

Lemma appends_lift {A} (o : outcome A) : appends get P (lift o).
Proof. intros s. exists []. cbn. now rewrite extend_nil. Qed.

Lemma appends_bind {A B} (m : Eff S A) (k : A -> Eff S B) :
  appends get P m -> (forall a, appends get P (k a)) -> appends get P (bind m k).
Proof.
  intros Hm Hk s. unfold bind.
  destruct (Hm s) as [l1 [E1 F1]]. destruct (m s) as [[a | e] s1]; cbn in E1.
  - destruct (Hk a s1) as [l2 [E2 F2]]. exists (l1 ++ l2)%list. split.
    + now rewrite E2, E1, extend_extend.
    + now apply Forall_app.
  - exists l1. now split.
Qed.

Lemma appends_try_except {A} (body : Eff S A) handler :
  appends get P body -> (forall e, appends get P (handler e)) ->
  appends get P (try_except body handler).
Proof.
  intros Hm Hk s. unfold try_except.
  destruct (Hm s) as [l1 [E1 F1]]. destruct (body s) as [[a | e] s1]; cbn in E1.
  - exists l1. now split.
  - destruct (Hk e s1) as [l2 [E2 F2]]. exists (l1 ++ l2)%list. split.
    + now rewrite E2, E1, extend_extend.
    + now apply Forall_app.
Qed.

Lemma appends_if {A} (b : bool) (m1 m2 : Eff S A) :
  appends get P m1 -> appends get P m2 -> appends get P (if b then m1 else m2).
Proof. now destruct b. Qed.

End Appends.

Lemma appends_emit P e : P e -> appends (fun w => w) P (emit e).
Proof. intros H w. exists [e]. split; [reflexivity | now constructor]. Qed.

Lemma appends_print P args : P (Print args) -> appends (fun w => w) P (print args).
Proof. apply appends_emit. Qed.

Lemma appends_in_world {L A} P (m : Eff World A) :
  appends (fun w => w) P m -> appends (fst : World * L -> World) P (in_world m).
Proof.
  intros H [w l]. unfold in_world. cbn.
  destruct (H w) as [new [E F]]. destruct (m w) as [r w']. cbn in *.
  exists new. now split.
Qed.

Lemma appends_assign P k v : appends (fst : World * dict -> World) P (assign k v).
Proof. intros [w d]. exists []. cbn. now rewrite extend_nil. Qed.

Lemma appends_with_local {A} P init (body : Eff (World * dict) A) :
  appends (fst : World * dict -> World) P body -> appends (fun w => w) P (with_local init body).
Proof.
  intros H w. unfold with_local.
  destruct (H (w, init)) as [new [E F]]. destruct (body (w, init)) as [[a | e] s]; cbn in *;
    exists new; now split.
Qed.

Lemma reads_only_print path args : reads_only path (Print args).
Proof. intros a H. discriminate H. Qed.

Lemma reads_only_other path fn args :
  String.eqb fn "extract_resume_text" = false -> reads_only path (Call fn args).
Proof.
  intros Hne a H. injection H as -> _. now rewrite String.eqb_refl in Hne.
Qed.

Lemma reads_only_extract path : reads_only path (Call "extract_resume_text" [VStr path]).
Proof. intros a H. now injection H as <-. Qed.

Ltac effects_using known :=
  repeat first
    [ known
    | apply appends_ret | apply appends_raise | apply appends_lift | apply appends_assign
    | apply appends_bind; [ | intros ? ]
    | apply appends_try_except; [ | intros ? ]
    | apply appends_in_world | apply appends_with_local | apply appends_if
    | apply appends_emit | apply appends_print
    | apply reads_only_print | apply reads_only_extract
    | apply reads_only_other; reflexivity ].

Ltac effects := effects_using fail.

Section Bodies.

Variable env : Env.
Variable path : string.

#[local] Abbreviation quiet := (appends (fun w : World => w) (reads_only path)).

Lemma appends_call_extract : quiet (call_extract_resume_text env path).
Proof.
  unfold call_extract_resume_text. apply appends_bind; [ effects | intros _ ].
  intros w. exists []. cbn. now rewrite extend_nil.
Qed.

Lemma appends_call_clean text : quiet (call_clean_extracted_text env text).
Proof. unfold call_clean_extracted_text. effects. Qed.

Lemma appends_call_info clean_text text : quiet (call_extract_basic_info env clean_text text).
Proof. unfold call_extract_basic_info. effects. Qed.

Lemma appends_gemini_call fn f a b c :
  String.eqb fn "extract_resume_text" = false -> quiet (gemini_call fn f a b c).
Proof. intros H. unfold gemini_call. effects. now apply reads_only_other. Qed.

Lemma appends_ai_calls g basic_info clean_text preferences :
  appends (fst : World * dict -> World) (reads_only path)
    (ai_calls g basic_info clean_text preferences).
Proof.
  unfold ai_calls.
  effects_using ltac:(apply appends_gemini_call; reflexivity).
Qed.

Lemma appends_ai_insights basic_info clean_text preferences :
  quiet (ai_insights env basic_info clean_text preferences).
Proof.
  unfold ai_insights. destruct (gemini_service env) as [g | ]; [ | effects ].
  apply appends_with_local, appends_try_except; [ apply appends_ai_calls | intros e; effects ].
Qed.

Lemma appends_process_try industries goals location :
  quiet (process_try env industries goals location path).
Proof.
  unfold process_try.
  effects_using ltac:(first
    [ apply appends_call_extract | apply appends_call_clean | apply appends_call_info
    | apply appends_ai_insights ]).
Qed.

Lemma appends_skills_try : quiet (skills_try env path).
Proof.
  unfold skills_try.
  effects_using ltac:(first
    [ apply appends_call_extract | apply appends_call_clean | apply appends_call_info ]).
Qed.

Lemma appends_resume_try name ext : quiet (resume_try env name ext path).
Proof.
  unfold resume_try.
  effects_using ltac:(first
    [ apply appends_call_extract | apply appends_call_clean | apply appends_call_info ]).
Qed.

End Bodies.

(** ** The [finally] block *)

Section Cleanup.

Variable env : Env.
Variable path : string.

(** [cleanup] never raises: the only call that can is under its own [try]. *)
Lemma cleanup_total : total (cleanup env path).
Proof.
  intros w. unfold cleanup, bind, os_path_exists, try_except, os_remove, bind, emit, print, emit.
  cbn. destruct (path_exists path w); cbn; [ | now exists tt ].
  destruct (files w !! path); cbn; [ | now exists tt ].
  destruct (os_error env (OpRemove path)); cbn; now exists tt.
Qed.

(** What [cleanup] does to a world that holds the file. *)
Lemma cleanup_present w content :
  files w !! path = Some content ->
  snd (cleanup env path w) =
    match os_error env (OpRemove path) with
    | None =>
        set_files (delete path (files w)) (extend w [Call "os.remove" [VStr path]])
    | Some e => extend w [Call "os.remove" [VStr path]; remove_warning path e]
    end.
Proof.
  intros H. unfold cleanup, bind, os_path_exists, try_except, os_remove, bind, emit, print, emit.
  cbn. unfold path_exists. rewrite bool_decide_eq_true_2 by (rewrite H; eauto). cbn. rewrite H.
  destruct (os_error env (OpRemove path)); cbn; [ | reflexivity ].
  unfold extend, remove_warning. cbn. now rewrite <- app_assoc.
Qed.

(** The statement [try: body / except Exception as e: handler e /
    finally: cleanup], run where the upload has been stored: the result is
    that of the [try ... except], the events are those of the body and
    then those of the handler and of the clean-up, one removal is
    attempted, and the file is gone unless [os.remove] itself failed. *)
Lemma guarded_run {A} (P : event -> Prop) (body : Eff World A) handler w content :
  appends (fun w => w) P body ->
  (forall e, appends (fun w => w) P (handler e)) ->
  P (Call "os.remove" [VStr path]) ->
  (forall e, P (remove_warning path e)) ->
  files w !! path = Some content ->
  exists mid rest,
    let r := try_finally (try_except body handler) (cleanup env path) w in
    snd (body w) = extend w mid
    /\ fst r = fst (try_except body handler w)
    /\ trace (snd r) = (trace w ++ mid ++ rest)%list
    /\ Forall P (mid ++ rest)%list
    /\ Call "os.remove" [VStr path] ∈ rest
    /\ match os_error env (OpRemove path) with
       | None => files (snd r) !! path = None
       | Some e => files (snd r) !! path = Some content /\ remove_warning path e ∈ rest
       end.
Proof.
  intros Hb Hh Hrm Hwarn Hfile.
  destruct (Hb w) as [mid [Emid Fmid]].
  assert (Hte : exists l2, snd (try_except body handler w) = extend w (mid ++ l2)%list
                           /\ Forall P l2).
  { unfold try_except. destruct (body w) as [[a | e] w1]; cbn in Emid; subst w1.
    - exists []. rewrite app_nil_r. split; [ reflexivity | constructor ].
    - destruct (Hh e (extend w mid)) as [l2 [E2 F2]]. exists l2.
      split; [ | assumption ]. now rewrite E2, extend_extend. }
  destruct Hte as [l2 [E2 F2]].
  unfold try_finally.
  destruct (try_except body handler w) as [r w1]. cbn in E2. subst w1.
  assert (Hfile' : files (extend w (mid ++ l2)) !! path = Some content) by exact Hfile.
  pose proof (cleanup_present _ _ Hfile') as Hc.
  destruct (cleanup_total (extend w (mid ++ l2))) as [u Hu].
  destruct (cleanup env path (extend w (mid ++ l2))) as [r2 w2]. cbn in Hc, Hu |- *. subst w2 r2.
  exists mid.
  destruct (os_error env (OpRemove path)) as [e | ].
  - exists (l2 ++ [Call "os.remove" [VStr path]; remove_warning path e])%list. cbn.
    repeat split; try assumption.
    + now rewrite <- !app_assoc.
    + repeat (apply Forall_app; split); try assumption. repeat constructor; auto.
    + set_solver.
    + set_solver.
  - exists (l2 ++ [Call "os.remove" [VStr path]])%list. cbn.
    repeat split; try assumption.
    + now rewrite <- !app_assoc.
    + repeat (apply Forall_app; split); try assumption. repeat constructor; auto.
    + set_solver.
    + apply lookup_delete_eq.
Qed.

End Cleanup.

(** ** Storing the upload *)

Section Store.

Variable env : Env.

Lemma file_save_ok f path w :
  os_error env (OpSave path) = None -> file_save env f path w = (Ok tt, stored path f w).
Proof. intros H. unfold file_save, bind, emit. cbn. now rewrite H. Qed.

Lemma file_save_fails f path w e :
  os_error env (OpSave path) = Some e ->
  file_save env f path w = (Raise e, extend w [Call "file.save" [VStr path]]).
Proof. intros H. unfold file_save, bind, emit. cbn. now rewrite H. Qed.

Lemma stored_lookup path f w : files (stored path f w) !! path = Some (stream f).
Proof. cbn. apply lookup_insert_eq. Qed.

Lemma appends_except_process path e :
  appends (fun w => w) (reads_only path) (process_except e).
Proof. unfold process_except. effects. Qed.

Lemma appends_except_skills path e :
  appends (fun w => w) (reads_only path) (skills_except e).
Proof. unfold skills_except. effects. Qed.

Lemma appends_except_resume path e :
  appends (fun w => w) (reads_only path) (resume_except e).
Proof. unfold resume_except. effects. Qed.

Lemma reads_only_warning path e : reads_only path (remove_warning path e).
Proof. apply reads_only_print. Qed.

(** [process_resume] once the upload is stored: the guarded statement run
    on the stored world, and [jsonify] of what it leaves. *)
Lemma process_resume_stored request f w :
  uploaded (request_files request !! "resume") = Some f ->
  os_error env (OpSave (upload_path env f)) = None ->
  process_resume env request w =
    let r :=
      try_finally
        (try_except
           (process_try env (form_field request "industries") (form_field request "goals")
              (form_field request "location") (upload_path env f))
           process_except)
        (cleanup env (upload_path env f)) (stored (upload_path env f) f w) in
    (match fst r with
     | Ok (inl response) => Ok response
     | Ok (inr response) => Ok (response, 200%Z)
     | Raise e => Raise e
     end, snd r).
Proof.
  intros Hf Hs. unfold process_resume. rewrite Hf.
  fold (upload_path env f). fold (form_field request "industries").
  fold (form_field request "goals"). fold (form_field request "location").
  rewrite (bind_ok _ _ _ _ _ (file_save_ok f _ w Hs)).
  unfold bind at 1.
  destruct (try_finally _ _ _) as [[[r | r] | e] w2]; reflexivity.
Qed.

Lemma extract_resume_stored request f w :
  uploaded (request_files request !! "resume") = Some f ->
  str_in (file_extension_of (filename f)) allowed_extensions = true ->
  os_error env (OpSave (upload_path env f)) = None ->
  extract_resume env request w =
    try_finally
      (try_except
         (resume_try env (filename f) (file_extension_of (filename f)) (upload_path env f))
         resume_except)
      (cleanup env (upload_path env f)) (stored (upload_path env f) f w).
Proof.
  intros Hf Hx Hs. unfold extract_resume. rewrite Hf, Hx. cbn [negb].
  fold (upload_path env f).
  now rewrite (bind_ok _ _ _ _ _ (file_save_ok f _ w Hs)).
Qed.

Lemma extract_skills_stored request f w :
  uploaded (request_files request !! "resume") = Some f ->
  folder_ready env w ->
  os_error env (OpSave (skills_path env w)) = None ->
  exists w1, skills_ready env w w1 /\
  extract_skills env request w =
    let r :=
      try_finally
        (try_except
           (bind (skills_try env (skills_path env w)) (fun response => ret (inr response)))
           skills_except)
        (cleanup env (skills_path env w)) (stored (skills_path env w) f w1) in
    (match fst r with
     | Ok (inl response) => Ok response
     | Ok (inr response) => Ok (response, 200%Z)
     | Raise e => Raise e
     end, snd r).
Proof.
  intros Hf Hmk Hs. unfold extract_skills. rewrite Hf.
  rewrite (bind_ok _ _ w _ w (eq_refl : os_path_exists (UPLOAD_FOLDER env) w = (Ok _, w))).
  destruct (path_exists (UPLOAD_FOLDER env) w) eqn:Hex.
  - exists w. split.
    { exists []. rewrite extend_nil. split; [ now destruct w | constructor ]. }
    rewrite (bind_ok _ _ w tt w eq_refl).
    rewrite (bind_ok _ _ w _ w (eq_refl : time_ms w = (Ok (now_ms w), w))).
    fold (skills_path env w).
    rewrite (bind_ok _ _ _ _ _ (file_save_ok f _ w Hs)).
    unfold bind at 1.
    destruct (try_finally _ _ _) as [[[r | r] | e] w2]; reflexivity.
  - destruct Hmk as [Hmk | Hmk]; [ congruence | ].
    set (w1 := set_dirs ({[UPLOAD_FOLDER env]} ∪ dirs w)
                 (extend w [Call "os.makedirs" [VStr (UPLOAD_FOLDER env)]])).
    assert (Hm : os_makedirs env (UPLOAD_FOLDER env) w = (Ok tt, w1)).
    { unfold os_makedirs, bind, emit, os_path_exists, path_exists in *. cbn.
      now rewrite Hex, Hmk. }
    exists w1. split.
    { exists [Call "os.makedirs" [VStr (UPLOAD_FOLDER env)]]. split; [ reflexivity | ].
      repeat constructor. now apply reads_only_other. }
    rewrite (bind_ok _ _ _ _ _ Hm).
    rewrite (bind_ok _ _ w1 _ w1 (eq_refl : time_ms w1 = (Ok (now_ms w), w1))).
    fold (skills_path env w).
    rewrite (bind_ok _ _ _ _ _ (file_save_ok f _ w1 Hs)).
    unfold bind at 1.
    destruct (try_finally _ _ _) as [[[r | r] | e] w2]; reflexivity.
Qed.

End Store.

(** ** The recommendation block *)

Lemma dict_lookup_set k v d : dict_lookup k (dict_set k v d) = Some v.
Proof.
  induction d as [ | [k' v'] r IH]; cbn.
  - now rewrite String.eqb_refl.
  - destruct (String.eqb k' k) eqn:E; cbn; now rewrite E.
Qed.

Section Insights.

Variable env : Env.

(** The block returns whatever the service does: with no service the
    dict stays empty, and an exception of the calls leaves what they had
    assigned so far plus the message under ['error']. *)
Lemma ai_insights_spec basic_info clean_text preferences w :
  exists ai,
    fst (ai_insights env basic_info clean_text preferences w) = Ok ai
    /\ ai_recorded env basic_info clean_text preferences w ai.
Proof.
  unfold ai_insights, ai_recorded. destruct (gemini_service env) as [g | ].
  - unfold with_local, try_except, dict in *.
    destruct (ai_calls g basic_info clean_text preferences (w, [])) as [[u | e] [w1 d]]; cbn.
    + now exists d.
    + eexists. split; [ reflexivity | ]. split; [ reflexivity | apply dict_lookup_set ].
  - now exists [].
Qed.

Lemma ai_insights_total basic_info clean_text preferences :
  total (ai_insights env basic_info clean_text preferences).
Proof.
  intros w. destruct (ai_insights_spec basic_info clean_text preferences w) as [ai [H _]].
  now exists ai.
Qed.

End Insights.

(** ** The body of [/process] *)

Ltac split_outcomes :=
  repeat match goal with
    | |- context [match ?o with Ok _ => _ | Raise _ => _ end] =>
        let E := fresh "E" in destruct o eqn:E; cbn
    | |- context [let (_, _) := ?p in _] =>
        let E := fresh "E" in destruct p eqn:E; cbn
    | |- context [if ?b then _ else _] =>
        let E := fresh "E" in destruct b eqn:E; cbn
    end.

Section Process.

Variable env : Env.
Variables industries goals location : value.
Variable path : string.

#[local] Abbreviation preferences := (preferences_of industries goals location).

(** Every way the body of the [try] can end. *)
Lemma process_try_cases w :
  match fst (process_try env industries goals location path w) with
  | Ok (inl response) =>
      response = jsonify_error "Could not extract text from resume" 400
      /\ exists raw, extract_resume_text env path (files w) = Ok raw /\ truthy raw = false
  | Ok (inr response) =>
      exists raw clean_text basic_info info ai w1,
        extract_resume_text env path (files w) = Ok raw
        /\ truthy raw = true
        /\ clean_extracted_text env raw = Ok clean_text
        /\ extract_basic_info env clean_text raw = Ok basic_info
        /\ extracted_info clean_text basic_info = Ok info
        /\ ai_recorded env basic_info clean_text preferences w1 ai
        /\ response = process_response info industries goals location ai
  | Raise e => True
  end.
Proof.
  unfold process_try, call_extract_resume_text, call_clean_extracted_text,
    call_extract_basic_info, bind, emit, print, emit, lift. cbn.
  destruct (extract_resume_text env path (files w)) as [raw | e] eqn:E1; cbn; [ | exact I ].
  destruct (truthy raw) eqn:E2; cbn; [ | split; [ reflexivity | now exists raw ] ].
  destruct (clean_extracted_text env raw) as [c | e] eqn:E3; cbn; [ | exact I ].
  destruct (extract_basic_info env c raw) as [b | e] eqn:E4; cbn; [ | exact I ].
  destruct (py_len c) as [n | e]; cbn; [ | exact I ].
  destruct (py_get b "skills" (VList [])) as [sk | e]; cbn; [ | exact I ].
  destruct (py_len sk) as [ns | e]; cbn; [ | exact I ].
  destruct (py_get b "skills_summary" (VDict [])) as [sm | e]; cbn; [ | exact I ].
  match goal with |- context [ai_insights ?e ?b ?c ?p ?w1] =>
    destruct (ai_insights_spec e b c p w1) as [ai [Hai Hrec]];
    destruct (ai_insights e b c p w1) as [r w2] eqn:Eai; cbn in Hai; subst r; cbn
  end.
  destruct (extracted_info c b) as [info | e] eqn:E5; cbn; [ | exact I ].
  exists raw, c, b, info, ai. eexists.
  repeat split; try eassumption; try reflexivity.
Qed.

End Process.

(** ** The three handlers, once the upload is stored *)

Lemma extend_inj w a b : extend w a = extend w b -> a = b.
Proof.
  unfold extend. intros H. injection H as H. now apply app_inv_head in H.
Qed.

(** A body that begins by calling the extractor logs that call first. *)
Lemma starts_with_extract {A} env path P (k : value -> Eff World A) w :
  (forall a, appends (fun w => w) P (k a)) ->
  exists tl,
    snd (bind (call_extract_resume_text env path) k w) =
      extend w (Call "extract_resume_text" [VStr path] :: tl).
Proof.
  intros Hk. unfold bind at 1. unfold call_extract_resume_text, bind, emit. cbn.
  destruct (extract_resume_text env path (files w)) as [a | e].
  - match goal with |- context [k a ?w1] => destruct (Hk a w1) as [tl [E _]] end.
    exists tl. rewrite E. unfold extend. cbn. now rewrite <- app_assoc.
  - now exists [].
Qed.

Section Runs.

Variable env : Env.

Lemma process_try_first i g l path w :
  exists tl,
    snd (process_try env i g l path w) =
      extend w (Call "extract_resume_text" [VStr path] :: tl).
Proof.
  unfold process_try. apply (starts_with_extract env path (reads_only path)).
  intros a.
  effects_using ltac:(first
    [ apply appends_call_clean | apply appends_call_info | apply appends_ai_insights ]).
Qed.

Lemma skills_try_first path w :
  exists tl,
    snd (bind (skills_try env path) (fun response : value =>
           ret (inr response : Response + value)) w) =
      extend w (Call "extract_resume_text" [VStr path] :: tl).
Proof.
  assert (H : exists tl, snd (skills_try env path w) =
                extend w (Call "extract_resume_text" [VStr path] :: tl)).
  { unfold skills_try. apply (starts_with_extract env path (reads_only path)).
    intros a.
    effects_using ltac:(first [ apply appends_call_clean | apply appends_call_info ]). }
  destruct H as [tl H]. exists tl. unfold bind.
  destruct (skills_try env path w) as [[a | e] w1]; exact H.
Qed.

Lemma resume_try_first name ext path w :
  exists tl,
    snd (resume_try env name ext path w) =
      extend w (Call "extract_resume_text" [VStr path] :: tl).
Proof.
  unfold resume_try. apply (starts_with_extract env path (reads_only path)).
  intros a.
  effects_using ltac:(first [ apply appends_call_clean | apply appends_call_info ]).
Qed.

Lemma guarded_cleaned_up {A} (body : Eff World A) handler path f w1 :
  appends (fun w => w) (reads_only path) body ->
  (forall e, appends (fun w => w) (reads_only path) (handler e)) ->
  (forall w, exists tl,
     snd (body w) = extend w (Call "extract_resume_text" [VStr path] :: tl)) ->
  let r := try_finally (try_except body handler) (cleanup env path) (stored path f w1) in
  fst r = fst (try_except body handler (stored path f w1))
  /\ cleaned_up env path f w1 (snd r).
Proof.
  intros Hb Hh Hfirst.
  destruct (guarded_run env path (reads_only path) body handler (stored path f w1) (stream f)
              Hb Hh) as [mid [rest [Hmid [Hfst [Htr [HF [Hrm Hfile]]]]]]].
  - now apply reads_only_other.
  - intros e. apply reads_only_warning.
  - apply stored_lookup.
  - destruct (Hfirst (stored path f w1)) as [tl Htl].
    rewrite Hmid in Htl. apply extend_inj in Htl. subst mid.
    cbn zeta. split; [ exact Hfst | ].
    exists tl, rest. repeat split.
    + rewrite Htr. cbn. now rewrite <- app_assoc.
    + now inversion HF.
    + exact Hrm.
    + exact Hfile.
Qed.

End Runs.

(** ** Exceptions of the core *)

Section Raises.

Variable env : Env.

Lemma try_except_raise_fst {S A} (body : Eff S A) handler s e a :
  fst (body s) = Raise e -> (forall s', fst (handler e s') = Ok a) ->
  fst (try_except body handler s) = Ok a.
Proof.
  intros Hb Hh. unfold try_except. destruct (body s) as [[x | e'] s1]; cbn in Hb.
  - discriminate.
  - injection Hb as ->. apply Hh.
Qed.

Lemma process_try_raises i g l path w e :
  core_raises env path (files w) true e ->
  fst (process_try env i g l path w) = Raise e.
Proof.
  intros H. unfold process_try, call_extract_resume_text, call_clean_extracted_text,
    call_extract_basic_info, bind, emit. cbn.
  destruct H as [H1 | raw H1 H2 H3 | raw c H1 H2 H3 H4]; rewrite H1; cbn;
    try reflexivity; rewrite (H2 eq_refl); cbn; unfold lift; rewrite H3; cbn;
    try reflexivity; now rewrite H4.
Qed.

Lemma skills_try_raises path w e :
  core_raises env path (files w) false e ->
  fst (bind (skills_try env path) (fun response : value =>
         ret (inr response : Response + value)) w) = Raise e.
Proof.
  intros H. unfold skills_try, call_extract_resume_text, call_clean_extracted_text,
    call_extract_basic_info, bind, emit. cbn.
  destruct H as [H1 | raw H1 H2 H3 | raw c H1 H2 H3 H4]; rewrite H1; cbn;
    try reflexivity; unfold lift; rewrite H3; cbn; try reflexivity; now rewrite H4.
Qed.

Lemma resume_try_raises name ext path w e :
  core_raises env path (files w) true e ->
  fst (resume_try env name ext path w) = Raise e.
Proof.
  intros H. unfold resume_try, call_extract_resume_text, call_clean_extracted_text,
    call_extract_basic_info, bind, emit. cbn.
  destruct H as [H1 | raw H1 H2 H3 | raw c H1 H2 H3 H4]; rewrite H1; cbn;
    try reflexivity; rewrite (H2 eq_refl); cbn; unfold lift; rewrite H3; cbn;
    try reflexivity; now rewrite H4.
Qed.

Lemma process_except_total e : total (process_except e).
Proof. intros s. now eexists. Qed.

Lemma skills_except_total e : total (skills_except e).
Proof. intros s. now eexists. Qed.

Lemma resume_except_total e : total (resume_except e).
Proof. intros s. now eexists. Qed.

(** *** The three handlers, run *)

Lemma process_resume_run request f w :
  uploaded (request_files request !! "resume") = Some f ->
  os_error env (OpSave (upload_path env f)) = None ->
  let path := upload_path env f in
  let guarded :=
    try_except
      (process_try env (form_field request "industries") (form_field request "goals")
         (form_field request "location") path)
      process_except in
  fst (process_resume env request w) =
    match fst (guarded (stored path f w)) with
    | Ok (inl response) => Ok response
    | Ok (inr response) => Ok (response, 200%Z)
    | Raise e => Raise e
    end
  /\ cleaned_up env path f w (snd (process_resume env request w)).
Proof.
  intros Hf Hs path guarded. rewrite (process_resume_stored env request f w Hf Hs).
  cbn zeta. cbn [fst snd].
  destruct (guarded_cleaned_up env
              (process_try env (form_field request "industries") (form_field request "goals")
                 (form_field request "location") path)
              process_except path f w) as [H1 H2].
  - apply appends_process_try.
  - apply appends_except_process.
  - intros w0. apply process_try_first.
  - cbn zeta in H1, H2. fold path. now rewrite H1.
Qed.

Lemma extract_resume_run request f w :
  uploaded (request_files request !! "resume") = Some f ->
  str_in (file_extension_of (filename f)) allowed_extensions = true ->
  os_error env (OpSave (upload_path env f)) = None ->
  let path := upload_path env f in
  fst (extract_resume env request w) =
    fst (try_except (resume_try env (filename f) (file_extension_of (filename f)) path)
           resume_except (stored path f w))
  /\ cleaned_up env path f w (snd (extract_resume env request w)).
Proof.
  intros Hf Hx Hs path. rewrite (extract_resume_stored env request f w Hf Hx Hs).
  apply guarded_cleaned_up.
  - apply appends_resume_try.
  - apply appends_except_resume.
  - intros w0. apply resume_try_first.
Qed.

Lemma extract_skills_run request f w :
  uploaded (request_files request !! "resume") = Some f ->
  folder_ready env w ->
  os_error env (OpSave (skills_path env w)) = None ->
  let path := skills_path env w in
  let guarded :=
    try_except
      (bind (skills_try env path) (fun response : value =>
         ret (inr response : Response + value)))
      skills_except in
  exists w1,
    skills_ready env w w1
    /\ fst (extract_skills env request w) =
         match fst (guarded (stored path f w1)) with
         | Ok (inl response) => Ok response
         | Ok (inr response) => Ok (response, 200%Z)
         | Raise e => Raise e
         end
    /\ cleaned_up env path f w1 (snd (extract_skills env request w)).
Proof.
  intros Hf Hr Hs path guarded.
  destruct (extract_skills_stored env request f w Hf Hr Hs) as [w1 [Hw1 E]].
  exists w1. split; [ exact Hw1 | ]. rewrite E. cbn zeta. cbn [fst snd].
  destruct (guarded_cleaned_up env
              (bind (skills_try env path) (fun response : value =>
                 ret (inr response : Response + value)))
              skills_except path f w1) as [H1 H2].
  - apply appends_bind; [ apply appends_skills_try | intros a; apply appends_ret ].
  - apply appends_except_skills.
  - intros w0. apply skills_try_first.
  - cbn zeta in H1, H2. fold path. now rewrite H1.
Qed.

Lemma skills_ready_files w w1 : skills_ready env w w1 -> files w1 = files w.
Proof. intros [new [E _]]. now rewrite E. Qed.

Lemma skills_ready_trace w w1 :
  skills_ready env w w1 ->
  exists new, trace w1 = (trace w ++ new)%list /\ Forall (reads_only (skills_path env w)) new.
Proof. intros [new [E F]]. exists new. split; [ now rewrite E | exact F ]. Qed.

End Raises.

(** * The claims *)

(** ** Unsupported extensions (C1) *)

(** [extract_resume] turns an unsupported extension away before it
    touches anything: the world is as it was, so nothing was stored and
    the extractor was not called. *)
Lemma extract_resume_rejects_first env request f w :
  uploaded (request_files request !! "resume") = Some f ->
  str_in (file_extension_of (filename f)) allowed_extensions = false ->
  extract_resume env request w = (Ok unsupported_format, w).
Proof.
  intros Hf Hx. unfold extract_resume. now rewrite Hf, Hx.
Qed.

(** C1: the claim wants every endpoint to turn an unsupported extension
    away before [extract_resume_text] is called. [process_resume] has no
    such test: whatever the extension of the upload, once the file is
    stored the extractor is called on it, and the response is never the
    unsupported-format rejection. *)
Theorem process_resume_extracts_any_extension env request f w :
  uploaded (request_files request !! "resume") = Some f ->
  os_error env (OpSave (upload_path env f)) = None ->
  Call "extract_resume_text" [VStr (upload_path env f)]
    ∈ trace (snd (process_resume env request w))
  /\ fst (process_resume env request w) <> Ok unsupported_format.
Proof.
  intros Hf Hs.
  destruct (process_resume_run env request f w Hf Hs) as [Hfst Hclean].
  split.
  - destruct Hclean as [tl [rest [Htr _]]]. rewrite Htr. set_solver.
  - rewrite Hfst. unfold try_except.
    pose proof (process_try_cases env (form_field request "industries")
                  (form_field request "goals") (form_field request "location")
                  (upload_path env f) (stored (upload_path env f) f w)) as Hc.
    destruct (process_try _ _ _ _ _ _) as [[[r | v] | e] w2]; cbn in Hc |- *.
    + destruct Hc as [-> _]. discriminate.
    + discriminate.
    + discriminate.
Qed.

Lemma process_resume_extracts_txt :
  str_in (file_extension_of "notes.txt") allowed_extensions = false
  /\ Call "extract_resume_text" [VStr "uploads/notes.txt"]
       ∈ trace (snd (process_resume (Double.env None Double.no_os_error)
                       (Double.upload "notes.txt" "hello") Double.world))
  /\ fst (process_resume (Double.env None Double.no_os_error)
            (Double.upload "notes.txt" "hello") Double.world) <> Ok unsupported_format.
Proof.
  split; [ reflexivity | ].
  apply (process_resume_extracts_any_extension (Double.env None Double.no_os_error)
           (Double.upload "notes.txt" "hello")
           {| filename := "notes.txt"; stream := list_byte_of_string "hello" |}
           Double.world); reflexivity.
Defined.

(** ** Exceptions become responses (C4) *)


(** [os.makedirs] of the upload folder fails in [extract_skills]. *)
Lemma extract_skills_makedirs_fails env request f w e :
  uploaded (request_files request !! "resume") = Some f ->
  path_exists (UPLOAD_FOLDER env) w = false ->
  os_error env (OpMakedirs (UPLOAD_FOLDER env)) = Some e ->
  fst (extract_skills env request w) = Raise e.
Proof.
  intros Hf Hex Hmk. unfold extract_skills. rewrite Hf.
  rewrite (bind_ok _ _ w _ w (eq_refl : os_path_exists (UPLOAD_FOLDER env) w = (Ok _, w))).
  rewrite Hex.
  assert (Hm : os_makedirs env (UPLOAD_FOLDER env) w
               = (Raise e, extend w [Call "os.makedirs" [VStr (UPLOAD_FOLDER env)]])).
  { unfold os_makedirs, bind, emit, os_path_exists, path_exists in *. cbn.
    now rewrite Hex, Hmk. }
  now rewrite (bind_raise _ _ _ _ _ Hm).
Qed.

(** [file.save] fails in [extract_skills], the folder being there or
    made. *)
Lemma extract_skills_save_fails env request f w e :
  uploaded (request_files request !! "resume") = Some f ->
  folder_ready env w ->
  os_error env (OpSave (skills_path env w)) = Some e ->
  fst (extract_skills env request w) = Raise e.
Proof.
  intros Hf Hmk Hs. unfold extract_skills. rewrite Hf.
  rewrite (bind_ok _ _ w _ w (eq_refl : os_path_exists (UPLOAD_FOLDER env) w = (Ok _, w))).
  destruct (path_exists (UPLOAD_FOLDER env) w) eqn:Hex.
  - rewrite (bind_ok _ _ w tt w eq_refl).
    rewrite (bind_ok _ _ w _ w (eq_refl : time_ms w = (Ok (now_ms w), w))).
    fold (skills_path env w).
    now rewrite (bind_raise _ _ _ _ _ (file_save_fails env f _ w e Hs)).
  - destruct Hmk as [Hmk | Hmk]; [ congruence | ].
    set (w1 := set_dirs ({[UPLOAD_FOLDER env]} ∪ dirs w)
                 (extend w [Call "os.makedirs" [VStr (UPLOAD_FOLDER env)]])).
    assert (Hm : os_makedirs env (UPLOAD_FOLDER env) w = (Ok tt, w1)).
    { unfold os_makedirs, bind, emit, os_path_exists, path_exists in *. cbn.
      now rewrite Hex, Hmk. }
    rewrite (bind_ok _ _ _ _ _ Hm).
    rewrite (bind_ok _ _ w1 _ w1 (eq_refl : time_ms w1 = (Ok (now_ms w), w1))).
    fold (skills_path env w).
    now rewrite (bind_raise _ _ _ _ _ (file_save_fails env f _ w1 e Hs)).
Qed.



(** ** The temporary file (C9) *)




(** ** The profile in the response *)

Lemma positive_length_truthy v n : py_len v = Ok n -> (0 <? n)%Z = truthy v.
Proof.
  destruct v as [ | | | s | l | d]; cbn; try discriminate; intros H; injection H as <-.
  - now destruct s.
  - now destruct l.
  - now destruct d.
Qed.

Lemma py_get_field b k default v : py_get b k default = Ok v -> v = field b k default.
Proof. destruct b; cbn; try discriminate. now intros [= <-]. Qed.

Lemma py_len_count v n : py_len v = Ok n -> n = count v.
Proof. unfold count. now intros ->. Qed.

(** When [extracted_info] returns, it returns [profile_view]. *)
Lemma extracted_info_view clean_text basic_info info :
  extracted_info clean_text basic_info = Ok info -> info = profile_view clean_text basic_info.
Proof.
  unfold extracted_info, obind.
  repeat match goal with
    | |- context [match ?o with Ok _ => _ | Raise _ => _ end] =>
        let E := fresh "E" in destruct o eqn:E; [ | discriminate ]
    end.
  intros [= <-]. unfold profile_view.
  repeat match goal with
    | H : py_get _ _ _ = Ok _ |- _ => apply py_get_field in H; subst
    end.
  repeat match goal with
    | H : py_len ?v = Ok ?n |- _ =>
        first [ rewrite (positive_length_truthy v n H) | rewrite (py_len_count v n H) ];
        clear H
    end.
  reflexivity.
Qed.

(** On a cleaned text and a profile of the expected shape it returns. *)
Lemma extracted_info_profile clean_text basic_info :
  is_text clean_text = true -> is_profile basic_info = true ->
  extracted_info clean_text basic_info = Ok (profile_view clean_text basic_info).
Proof.
  intros Hc Hb.
  assert (H : exists info, extracted_info clean_text basic_info = Ok info).
  { destruct clean_text; try discriminate. destruct basic_info as [ | | | | | d]; try discriminate.
    unfold is_profile in Hb. apply andb_prop in Hb as [Hb H3]. apply andb_prop in Hb as [H1 H2].
    unfold extracted_info, obind, py_get. cbn in H1, H2, H3 |- *.
    destruct (dict_lookup "skills" d) as [[ | | | | | ] | ]; try discriminate; cbn;
    destruct (dict_lookup "experience_keywords" d) as [[ | | | | | ] | ]; try discriminate; cbn;
    destruct (dict_lookup "education_keywords" d) as [[ | | | | | ] | ]; try discriminate; cbn;
    eauto. }
  destruct H as [info H]. now rewrite H, (extracted_info_view _ _ _ H).
Qed.

Section Profile.

Variable env : Env.

Lemma try_except_ok_fst {S A} (body : Eff S A) handler s a :
  fst (body s) = Ok a -> fst (try_except body handler s) = Ok a.
Proof. intros H. unfold try_except. destruct (body s) as [[x | e] s1]; cbn in *; congruence. Qed.

(** The body of [/process] when the core returns and the profile can be
    read: control leaves it with the response dict. *)
Lemma process_try_profile i g l path w raw clean_text basic_info info :
  extract_resume_text env path (files w) = Ok raw ->
  truthy raw = true ->
  clean_extracted_text env raw = Ok clean_text ->
  extract_basic_info env clean_text raw = Ok basic_info ->
  extracted_info clean_text basic_info = Ok info ->
  exists ai w1,
    fst (process_try env i g l path w) = Ok (inr (process_response info i g l ai))
    /\ ai_recorded env basic_info clean_text (preferences_of i g l) w1 ai.
Proof.
  intros H1 H2 H3 H4 H5.
  pose proof (process_try_cases env i g l path w) as Hc.
  revert Hc.
  unfold process_try, call_extract_resume_text, call_clean_extracted_text,
    call_extract_basic_info, bind, emit, print, emit, lift. cbn.
  rewrite H1. cbn. rewrite H2. cbn. rewrite H3. cbn. rewrite H4. cbn.
  pose proof H5 as H5'. unfold extracted_info, obind in H5'.
  destruct (py_len clean_text) as [n | ]; [ | discriminate ]. cbn.
  destruct (py_get basic_info "email" VNone) as [em | ]; [ | discriminate ].
  destruct (py_get basic_info "skills" (VList [])) as [sk | ]; [ | discriminate ]. cbn.
  destruct (py_get basic_info "skills_summary" (VDict [])) as [sm | ]; [ | discriminate ].
  destruct (py_len sk) as [ns | ]; [ | discriminate ]. cbn.
  match goal with |- context [ai_insights ?e ?b ?c ?p ?w1] =>
    destruct (ai_insights_total e b c p w1) as [ai Hai];
    destruct (ai_insights e b c p w1) as [r w2]; cbn in Hai; subst r; cbn
  end.
  rewrite H5. cbn.
  intros (raw' & c' & b' & info' & ai' & w1 & E1 & _ & E3 & E4 & E5 & Hrec & Eresp).
  injection E1 as <-. rewrite H3 in E3. injection E3 as <-.
  rewrite H4 in E4. injection E4 as <-. rewrite H5 in E5. injection E5 as <-.
  injection Eresp as Eai. subst ai'. now exists ai, w1.
Qed.

(** [/process], from the stored upload to the response, on the same
    premises. *)
Lemma process_resume_profile request f w raw clean_text basic_info info :
  uploaded (request_files request !! "resume") = Some f ->
  os_error env (OpSave (upload_path env f)) = None ->
  extract_resume_text env (upload_path env f)
    (<[upload_path env f := stream f]> (files w)) = Ok raw ->
  truthy raw = true ->
  clean_extracted_text env raw = Ok clean_text ->
  extract_basic_info env clean_text raw = Ok basic_info ->
  extracted_info clean_text basic_info = Ok info ->
  exists ai w1,
    fst (process_resume env request w) =
      Ok (process_response info (form_field request "industries")
            (form_field request "goals") (form_field request "location") ai, 200%Z)
    /\ ai_recorded env basic_info clean_text
         (preferences_of (form_field request "industries") (form_field request "goals")
            (form_field request "location")) w1 ai.
Proof.
  intros Hf Hs H1 H2 H3 H4 H5.
  destruct (process_resume_run env request f w Hf Hs) as [Hfst _].
  destruct (process_try_profile (form_field request "industries") (form_field request "goals")
              (form_field request "location") (upload_path env f)
              (stored (upload_path env f) f w) raw clean_text basic_info info
              H1 H2 H3 H4 H5) as (ai & w1 & Hbody & Hrec).
  exists ai, w1. split; [ | exact Hrec ].
  rewrite Hfst. now rewrite (try_except_ok_fst _ process_except _ _ Hbody).
Qed.

(** A response with status 200 comes from nowhere else. *)
Lemma process_resume_200 request w body :
  fst (process_resume env request w) = Ok (body, 200%Z) ->
  exists f raw clean_text basic_info ai,
    uploaded (request_files request !! "resume") = Some f
    /\ extract_resume_text env (upload_path env f)
         (<[upload_path env f := stream f]> (files w)) = Ok raw
    /\ truthy raw = true
    /\ clean_extracted_text env raw = Ok clean_text
    /\ extract_basic_info env clean_text raw = Ok basic_info
    /\ body = process_response (profile_view clean_text basic_info)
                (form_field request "industries") (form_field request "goals")
                (form_field request "location") ai.
Proof.
  intros H.
  destruct (uploaded (request_files request !! "resume")) as [f | ] eqn:Hf.
  2:{ unfold process_resume in H. rewrite Hf in H. discriminate H. }
  destruct (os_error env (OpSave (upload_path env f))) as [e | ] eqn:Hs.
  { unfold process_resume in H. rewrite Hf in H. fold (upload_path env f) in H.
    rewrite (bind_raise _ _ _ _ _ (file_save_fails env f _ w e Hs)) in H. discriminate H. }
  destruct (process_resume_run env request f w Hf Hs) as [Hfst _].
  rewrite Hfst in H. clear Hfst. unfold try_except in H.
  pose proof (process_try_cases env (form_field request "industries")
                (form_field request "goals") (form_field request "location")
                (upload_path env f) (stored (upload_path env f) f w)) as Hc.
  destruct (process_try _ _ _ _ _ _) as [[[r | v] | e] w2]; cbn in Hc, H.
  - destruct Hc as [-> _]. discriminate H.
  - destruct Hc as (raw & c & b & info & ai & w1 & E1 & E2 & E3 & E4 & E5 & _ & ->).
    injection H as <-. apply extracted_info_view in E5. subst info.
    exists f, raw, c, b, ai. repeat split; assumption.
  - discriminate H.
Qed.

End Profile.

(** ** No usable text (C2) *)

Section NoText.

Variable env : Env.

Lemma process_try_no_text i g l path w raw :
  extract_resume_text env path (files w) = Ok raw -> truthy raw = false ->
  fst (process_try env i g l path w) =
    Ok (inl (jsonify_error "Could not extract text from resume" 400)).
Proof.
  intros H1 H2. unfold process_try, call_extract_resume_text, bind, emit. cbn.
  rewrite H1. cbn. now rewrite H2.
Qed.

Lemma resume_try_no_text name ext path w raw :
  extract_resume_text env path (files w) = Ok raw -> truthy raw = false ->
  fst (resume_try env name ext path w) = Ok no_text.
Proof.
  intros H1 H2. unfold resume_try, call_extract_resume_text, bind, emit. cbn.
  rewrite H1. cbn. now rewrite H2.
Qed.

End NoText.

(** C2 as stated - extraction succeeds, the cleaned text is empty, and
    [/process] answers with the could-not-extract rejection - fails on a
    whitespace-only text: the handler tests the raw text, which is not
    empty, and goes on to a success response. *)
Lemma blank_text_is_processed :
  ~ (forall env request f w raw,
       uploaded (request_files request !! "resume") = Some f ->
       os_error env (OpSave (upload_path env f)) = None ->
       extract_resume_text env (upload_path env f)
         (<[upload_path env f := stream f]> (files w)) = Ok raw ->
       clean_extracted_text env raw = Ok (VStr "") ->
       fst (process_resume env request w) =
         Ok (jsonify_error "Could not extract text from resume" 400)).
Proof.
  intros H.
  specialize (H (Double.env None Double.no_os_error) (Double.upload "cv.pdf" "   ")
                {| filename := "cv.pdf"; stream := list_byte_of_string "   " |}
                Double.world (VStr "   ") eq_refl eq_refl eq_refl eq_refl).
  vm_compute in H. discriminate H.
Qed.

(** C2, amended: the test is made on the raw text, before cleaning. When
    extraction returns no text at all ([None] or the empty string),
    [/process] and [/extract-resume] answer with their could-not-extract
    rejection, status 400. When the raw text is not empty but cleans to
    the empty string, [/process] goes on and returns a success response
    whose [text_length] is 0. *)
Theorem no_raw_text_is_rejected env request f w raw :
  uploaded (request_files request !! "resume") = Some f ->
  os_error env (OpSave (upload_path env f)) = None ->
  extract_resume_text env (upload_path env f)
    (<[upload_path env f := stream f]> (files w)) = Ok raw ->
  (truthy raw = false ->
     fst (process_resume env request w) =
       Ok (jsonify_error "Could not extract text from resume" 400)
     /\ (str_in (file_extension_of (filename f)) allowed_extensions = true ->
         fst (extract_resume env request w) = Ok no_text))
  /\ (truthy raw = true ->
      forall basic_info,
        clean_extracted_text env raw = Ok (VStr "") ->
        extract_basic_info env (VStr "") raw = Ok basic_info ->
        is_profile basic_info = true ->
        exists body,
          fst (process_resume env request w) = Ok (body, 200%Z)
          /\ field (field body "extracted_info" VNone) "text_length" VNone = VInt 0).
Proof.
  intros Hf Hs H1. split.
  - intros H2. split.
    + destruct (process_resume_run env request f w Hf Hs) as [Hfst _]. rewrite Hfst.
      now rewrite (try_except_ok_fst _ process_except _ _
                     (process_try_no_text env _ _ _ (upload_path env f)
                        (stored (upload_path env f) f w) raw H1 H2)).
    + intros Hx. destruct (extract_resume_run env request f w Hf Hx Hs) as [Hfst _].
      rewrite Hfst. apply try_except_ok_fst.
      exact (resume_try_no_text env _ _ (upload_path env f)
               (stored (upload_path env f) f w) raw H1 H2).
  - intros H2 b H3 H4 H5.
    destruct (process_resume_profile env request f w raw (VStr "") b
                (profile_view (VStr "") b) Hf Hs H1 H2 H3 H4
                (extracted_info_profile (VStr "") b eq_refl H5)) as (ai & w1 & H & _).
    eexists. split; [ exact H | reflexivity ].
Qed.

Lemma empty_upload_is_rejected :
  fst (process_resume (Double.env None Double.no_os_error) (Double.upload "cv.pdf" "")
         Double.world) = Ok (jsonify_error "Could not extract text from resume" 400)
  /\ fst (extract_resume (Double.env None Double.no_os_error) (Double.upload "cv.pdf" "")
            Double.world) = Ok no_text.
Proof.
  destruct (no_raw_text_is_rejected (Double.env None Double.no_os_error)
              (Double.upload "cv.pdf" "")
              {| filename := "cv.pdf"; stream := list_byte_of_string "" |}
              Double.world (VStr "") eq_refl eq_refl eq_refl) as [Hempty _].
  destruct (Hempty eq_refl) as [Hp Hr]. split; [ exact Hp | now apply Hr ].
Defined.

(** ** The profile without the recommendations (C3) *)



(** ** The fields of the profile (C5, C6, C7) *)

(** C5 as stated - the profile object of a successful [/process]
    response has exactly the nine listed fields - fails: the object has a
    tenth field, [text_length]. *)
Lemma profile_has_text_length :
  ~ (forall env request w body,
       fst (process_resume env request w) = Ok (body, 200%Z) ->
       keys_of (field body "extracted_info" VNone) = profile_fields).
Proof.
  intros H.
  specialize (H (Double.env None Double.no_os_error) (Double.upload "cv.pdf" "Python")
                Double.world _ eq_refl).
  vm_compute in H. discriminate H.
Qed.

(** C5, amended: the body of a successful [/process] response has the
    keys [summary], [extracted_info], [preferences] and [ai_insights], and
    [extracted_info] holds [text_length] followed by the nine profile
    fields, in the order of the list. *)
Theorem profile_fields_of_response env request w body :
  fst (process_resume env request w) = Ok (body, 200%Z) ->
  keys_of body = ["summary"; "extracted_info"; "preferences"; "ai_insights"]
  /\ keys_of (field body "extracted_info" VNone) = "text_length" :: profile_fields.
Proof.
  intros H.
  destruct (process_resume_200 env request w body H)
    as (f & raw & c & b & ai & _ & _ & _ & _ & _ & ->).
  split; reflexivity.
Qed.

Lemma profile_fields_of_sample_response :
  exists body,
    fst (process_resume (Double.env None Double.no_os_error)
           (Double.upload "cv.pdf" "Python") Double.world) = Ok (body, 200%Z)
    /\ keys_of body = ["summary"; "extracted_info"; "preferences"; "ai_insights"]
    /\ keys_of (field body "extracted_info" VNone) = "text_length" :: profile_fields.
Proof.
  eexists. split; [ reflexivity | ].
  apply (profile_fields_of_response (Double.env None Double.no_os_error)
           (Double.upload "cv.pdf" "Python") Double.world). reflexivity.
Defined.

(** C6: in a successful [/process] response each of the two flags is the
    truth value of the corresponding keyword list of the profile of this
    very request - what [extract_basic_info] returned for the cleaned
    and the raw text of the stored upload - and the list of experience
    keywords is the one the response carries beside the flag: a flag is
    true exactly when its list is not empty, however many entries,
    repeated or not, the list holds. *)
Theorem keyword_flags_tell_presence env request w body :
  fst (process_resume env request w) = Ok (body, 200%Z) ->
  exists f raw clean_text profile,
    uploaded (request_files request !! "resume") = Some f
    /\ extract_resume_text env (upload_path env f)
         (<[upload_path env f := stream f]> (files w)) = Ok raw
    /\ clean_extracted_text env raw = Ok clean_text
    /\ extract_basic_info env clean_text raw = Ok profile
    /\ let info := field body "extracted_info" VNone in
       let experience := field profile "experience_keywords" (VList []) in
       let education := field profile "education_keywords" (VList []) in
       field info "experience_keywords" VNone = experience
       /\ field info "has_experience_keywords" VNone = VBool (truthy experience)
       /\ field info "has_education_keywords" VNone = VBool (truthy education)
       /\ (forall l, experience = VList l ->
             (field info "has_experience_keywords" VNone = VBool true <-> l <> []))
       /\ (forall l, education = VList l ->
             (field info "has_education_keywords" VNone = VBool true <-> l <> [])).
Proof.
  intros H.
  destruct (process_resume_200 env request w body H)
    as (f & raw & c & b & ai & Hf & Hraw & _ & Hc & Hb & ->).
  exists f, raw, c, b.
  split; [ exact Hf | ]. split; [ exact Hraw | ]. split; [ exact Hc | ].
  split; [ exact Hb | ]. cbn zeta.
  change (field (field (process_response (profile_view c b) _ _ _ ai) "extracted_info" VNone)
            "experience_keywords" VNone)
    with (field b "experience_keywords" (VList [])).
  change (field (field (process_response (profile_view c b) _ _ _ ai) "extracted_info" VNone)
            "has_experience_keywords" VNone)
    with (VBool (truthy (field b "experience_keywords" (VList [])))).
  change (field (field (process_response (profile_view c b) _ _ _ ai) "extracted_info" VNone)
            "has_education_keywords" VNone)
    with (VBool (truthy (field b "education_keywords" (VList [])))).
  split; [ reflexivity | ]. split; [ reflexivity | ]. split; [ reflexivity | ].
  split; intros l El; rewrite El; destruct l; cbn; split; intros E;
    solve [ discriminate E | now contradict E | discriminate | reflexivity ].
Qed.

Lemma keyword_flags_of_sample_response :
  exists body,
    fst (process_resume (Double.env None Double.no_os_error)
           (Double.upload "cv.pdf" "Python") Double.world) = Ok (body, 200%Z)
    /\ exists profile,
         Double.one_skill (VStr "Python") (VStr "Python") = Ok profile
         /\ field (field body "extracted_info" VNone) "experience_keywords" VNone
            = VList [VStr "experience"; VStr "experience"]
         /\ field (field body "extracted_info" VNone) "has_experience_keywords" VNone
            = VBool (truthy (field profile "experience_keywords" (VList [])))
         /\ field (field body "extracted_info" VNone) "has_education_keywords" VNone
            = VBool (truthy (field profile "education_keywords" (VList []))).
Proof.
  eexists. split; [ reflexivity | ].
  destruct (keyword_flags_tell_presence (Double.env None Double.no_os_error)
              (Double.upload "cv.pdf" "Python") Double.world _ eq_refl)
    as (f & raw & c & b & Hf & Hraw & Hc & Hb & Hlist & Hexp & Hedu & _).
  injection Hf as <-. injection Hraw as <-. injection Hc as <-.
  exists b. split; [ exact Hb | ]. split; [ reflexivity | ].
  split; assumption.
Defined.

(** C7: when some text was extracted and the profile read, the profile
    is answered with the normal success response whatever it lacks:
    status 200, and the email, the skills and the other fields are the
    profile's as they are - [None] for an email that is [None] or
    missing, empty lists for what was not found. *)
Theorem partial_profile_is_success env request f w raw clean_text basic_info :
  uploaded (request_files request !! "resume") = Some f ->
  os_error env (OpSave (upload_path env f)) = None ->
  extract_resume_text env (upload_path env f)
    (<[upload_path env f := stream f]> (files w)) = Ok raw ->
  truthy raw = true ->
  clean_extracted_text env raw = Ok clean_text ->
  is_text clean_text = true ->
  extract_basic_info env clean_text raw = Ok basic_info ->
  is_profile basic_info = true ->
  exists body,
    fst (process_resume env request w) = Ok (body, 200%Z)
    /\ let info := field body "extracted_info" VNone in
       field info "email" VNone = field basic_info "email" VNone
       /\ field info "detected_skills" VNone = field basic_info "skills" (VList [])
       /\ field info "skills_by_category" VNone = field basic_info "skills_summary" (VDict [])
       /\ field info "experience_entries" VNone = field basic_info "experience_entries" (VList [])
       /\ field info "project_entries" VNone = field basic_info "project_entries" (VList [])
       /\ field info "experience_keywords" VNone
          = field basic_info "experience_keywords" (VList []).
Proof.
  intros Hf Hs H1 H2 H3 Hc H4 Hb.
  destruct (process_resume_profile env request f w raw clean_text basic_info
              (profile_view clean_text basic_info) Hf Hs H1 H2 H3 H4
              (extracted_info_profile _ _ Hc Hb)) as (ai & w1 & H & _).
  eexists. split; [ exact H | ]. cbn zeta.
  repeat split; reflexivity.
Qed.

Lemma skills_without_email_is_success :
  exists body,
    fst (process_resume (Double.env None Double.no_os_error)
           (Double.upload "cv.pdf" "Python") Double.world) = Ok (body, 200%Z)
    /\ field (field body "extracted_info" VNone) "email" VNone = VNone
    /\ field (field body "extracted_info" VNone) "detected_skills" VNone
       = VList [VStr "python"].
Proof.
  destruct (partial_profile_is_success (Double.env None Double.no_os_error)
              (Double.upload "cv.pdf" "Python")
              {| filename := "cv.pdf"; stream := list_byte_of_string "Python" |}
              Double.world (VStr "Python") (VStr "Python")
              (VDict
                 [("email", VNone);
                  ("skills", VList [VStr "python"]);
                  ("skills_summary", VDict [("programming", VList [VStr "python"])]);
                  ("experience_keywords", VList [VStr "experience"; VStr "experience"]);
                  ("education_keywords", VList [])])
              eq_refl eq_refl eq_refl eq_refl eq_refl eq_refl eq_refl eq_refl)
    as (body & H & Hemail & Hskills & _).
  exists body. repeat split; assumption.
Defined.


(** ** Strings and paths *)

Lemma append_nil (b : string) : "" ++ b = b.
Proof. reflexivity. Qed.

Lemma append_cons x (a b : string) : String x a ++ b = String x (a ++ b).
Proof. reflexivity. Qed.

Lemma append_assoc' (a b c : string) : (a ++ b) ++ c = a ++ (b ++ c).
Proof.
  induction a as [ | x a IH]; rewrite ?append_nil, ?append_cons; [ reflexivity | now f_equal ].
Qed.

Lemma length_append (a b : string) :
  String.length (a ++ b) = (String.length a + String.length b)%nat.
Proof.
  induction a as [ | x a IH]; rewrite ?append_nil, ?append_cons; cbn [String.length Nat.add];
    [ reflexivity | now f_equal ].
Qed.

Lemma rfind_lower_bound c s : (-1 <= rfind c s)%Z.
Proof.
  induction s as [ | a s IH]; cbn; [ lia | ].
  destruct (0 <=? rfind c s)%Z eqn:E; [ lia | ]. destruct (Ascii.eqb a c); lia.
Qed.

Lemma rfind_upper_bound c s : (rfind c s < Z.of_nat (String.length s))%Z.
Proof.
  induction s as [ | a s IH]; cbn [rfind String.length]; [ cbn; lia | ].
  destruct (0 <=? rfind c s)%Z eqn:E; [ lia | ]. destruct (Ascii.eqb a c); lia.
Qed.

(** The last occurrence in [a ++ b] is the one in [b], if there is one. *)
Lemma rfind_append c a b :
  rfind c (a ++ b) =
    if (0 <=? rfind c b)%Z then (Z.of_nat (String.length a) + rfind c b)%Z else rfind c a.
Proof.
  induction a as [ | x a IH]; rewrite ?append_nil, ?append_cons; cbn [rfind String.length].
  - destruct (0 <=? rfind c b)%Z eqn:E; [ cbn; lia | ].
    pose proof (rfind_lower_bound c b). apply Z.leb_gt in E. cbn. lia.
  - rewrite IH. destruct (0 <=? rfind c b)%Z eqn:E.
    + apply Z.leb_le in E.
      replace (0 <=? Z.of_nat (String.length a) + rfind c b)%Z with true
        by (symmetry; apply Z.leb_le; lia).
      lia.
    + reflexivity.
Qed.

Lemma get_append_length (a b : string) : String.get (String.length a) (a ++ b) = String.get 0 b.
Proof.
  induction a as [ | x a IH]; rewrite ?append_nil, ?append_cons; [ reflexivity | exact IH ].
Qed.

Lemma substring_append_length (a b : string) :
  substring (String.length a) (String.length b) (a ++ b) = b.
Proof.
  induction a as [ | x a IH]; rewrite ?append_nil, ?append_cons; cbn [String.length substring].
  - induction b as [ | y b IHb]; cbn; [ reflexivity | now rewrite IHb ].
  - exact IH.
Qed.

(** *** Lower case *)

Lemma lower_char_idempotent c : lower_char (lower_char c) = lower_char c.
Proof. destruct c as [[] [] [] [] [] [] [] []]; reflexivity. Qed.

Lemma lower_char_eqb_sep c : Ascii.eqb (lower_char c) sep = Ascii.eqb c sep.
Proof. destruct c as [[] [] [] [] [] [] [] []]; reflexivity. Qed.

Lemma lower_char_eqb_extsep c : Ascii.eqb (lower_char c) extsep = Ascii.eqb c extsep.
Proof. destruct c as [[] [] [] [] [] [] [] []]; reflexivity. Qed.

Lemma lower_idempotent s : lower (lower s) = lower s.
Proof.
  induction s as [ | c s IH]; cbn; [ reflexivity | ].
  now rewrite lower_char_idempotent, IH.
Qed.

Lemma length_lower s : String.length (lower s) = String.length s.
Proof. induction s as [ | c s IH]; cbn; [ reflexivity | now rewrite IH ]. Qed.

Lemma rfind_lower_sep s : rfind sep (lower s) = rfind sep s.
Proof.
  induction s as [ | c s IH]; cbn [lower rfind]; [ reflexivity | ].
  now rewrite IH, lower_char_eqb_sep.
Qed.

Lemma rfind_lower_extsep s : rfind extsep (lower s) = rfind extsep s.
Proof.
  induction s as [ | c s IH]; cbn [lower rfind]; [ reflexivity | ].
  now rewrite IH, lower_char_eqb_extsep.
Qed.

Lemma get_lower n s : String.get n (lower s) = option_map lower_char (String.get n s).
Proof.
  revert n. induction s as [ | c s IH]; intros n; cbn; [ reflexivity | ].
  destruct n; [ reflexivity | apply IH ].
Qed.

Lemma has_stem_lower n p i : has_stem n (lower p) i = has_stem n p i.
Proof.
  revert i. induction n as [ | n IH]; intros i; cbn; [ reflexivity | ].
  rewrite get_lower. destruct (String.get (Z.to_nat i) p) as [c | ]; cbn; [ | reflexivity ].
  now rewrite lower_char_eqb_extsep, IH.
Qed.

Lemma substring_lower n m s : substring n m (lower s) = lower (substring n m s).
Proof.
  revert n m. induction s as [ | c s IH]; intros n m; cbn.
  - destruct n, m; reflexivity.
  - destruct n as [ | n]; [ destruct m as [ | m]; cbn; [ reflexivity | now rewrite IH ] | apply IH ].
Qed.

(** [splitext] commutes with [lower]: the case of the letters moves no
    separator and no dot. *)
Lemma splitext_lower p :
  splitext (lower p) = (lower (fst (splitext p)), lower (snd (splitext p))).
Proof.
  unfold splitext, slice_to, slice_from.
  rewrite rfind_lower_sep, rfind_lower_extsep, has_stem_lower, length_lower.
  destruct (_ && _); cbn [fst snd]; [ | reflexivity ].
  now rewrite !substring_lower.
Qed.

Lemma file_extension_lower name : file_extension_of (lower name) = file_extension_of name.
Proof.
  unfold file_extension_of. rewrite splitext_lower. cbn [snd]. apply lower_idempotent.
Qed.

(** *** The name [extract_skills] generates *)

Lemma rfind_no_char c s : no_char c s = true -> rfind c s = (-1)%Z.
Proof.
  induction s as [ | a s IH]; cbn; [ reflexivity | ].
  intros H. apply andb_prop in H as [H1 H2]. rewrite (IH H2). cbn.
  now destruct (Ascii.eqb a c).
Qed.

Lemma no_char_append c a b : no_char c (a ++ b) = no_char c a && no_char c b.
Proof.
  induction a as [ | x a IH]; rewrite ?append_nil, ?append_cons; cbn [no_char];
    [ reflexivity | ].
  now rewrite IH, andb_assoc.
Qed.

Lemma no_char_uint c (d : Decimal.uint) :
  no_char c "0123456789" = false \/ no_char c (NilEmpty.string_of_uint d) = true.
Proof.
  destruct (no_char c "0123456789") eqn:E; [ right | now left ].
  cbn in E. repeat (apply andb_prop in E as [? E]).
  induction d; cbn; try reflexivity;
    repeat (apply andb_true_intro; split); assumption.
Qed.

(** The decimal numeral of an integer has no dot and no slash. *)
Lemma no_char_str_int c n :
  no_char c "-0123456789" = true -> no_char c (str_int n) = true.
Proof.
  intros H. cbn in H. apply andb_prop in H as [Hm H].
  assert (Hd : forall d, no_char c (NilEmpty.string_of_uint d) = true).
  { intros d. destruct (no_char_uint c d) as [E | E]; [ | exact E ].
    cbn in E. rewrite H in E. discriminate E. }
  assert (Hz : forall d, no_char c (NilZero.string_of_uint d) = true).
  { intros d. unfold NilZero.string_of_uint. destruct d; try apply Hd.
    cbn. apply andb_prop in H as [Hzero _]. now rewrite Hzero. }
  unfold str_int, NilZero.string_of_int.
  destruct (Z.to_int n) as [d | d]; [ apply Hz | ].
  cbn. rewrite Hm. apply Hz.
Qed.

Lemma endswith_sep_split a : endswith_sep a = true -> exists p0, a = p0 ++ "/".
Proof.
  induction a as [ | c a IH]; [ discriminate | ].
  destruct a as [ | c' a'].
  - cbn. intros H. apply Ascii.eqb_eq in H. subst c. now exists "".
  - intros H. destruct (IH H) as [p0 E]. exists (String c p0).
    rewrite append_cons. now f_equal.
Qed.

(** [os.path.join(a, b)] for a relative [b] puts [b] after a prefix that
    is empty or ends with the separator. *)
Lemma path_join_relative a b :
  startswith_sep b = false ->
  exists pre, path_join a b = pre ++ b /\ (pre = "" \/ exists p0, pre = p0 ++ "/").
Proof.
  intros Hb. unfold path_join. rewrite Hb.
  destruct (String.eqb a "") eqn:Ea; cbn [orb].
  - apply String.eqb_eq in Ea. subst a. exists "". split; [ reflexivity | now left ].
  - destruct (endswith_sep a) eqn:Es.
    + exists a. split; [ reflexivity | right; now apply endswith_sep_split ].
    + exists (a ++ "/"). split; [ now rewrite append_assoc' | right; now exists a ].
Qed.

(** [splitext] of a path whose last component is [stem ++ ".pdf"], for a
    stem without dot or separator. *)
Lemma splitext_pdf_name pre c r :
  (pre = "" \/ exists p0, pre = p0 ++ "/") ->
  no_char sep (String c r) = true ->
  no_char extsep (String c r) = true ->
  snd (splitext (pre ++ String c r ++ ".pdf")) = ".pdf".
Proof.
  intros Hpre Hsep Hdot.
  assert (Hsi : (rfind sep pre + 1 = Z.of_nat (String.length pre))%Z).
  { destruct Hpre as [-> | [p0 ->]]; [ reflexivity | ].
    rewrite rfind_append, length_append. cbn. lia. }
  assert (Hns : rfind sep (String c r ++ ".pdf") = (-1)%Z).
  { apply rfind_no_char. rewrite no_char_append, Hsep. reflexivity. }
  assert (Hnd : rfind extsep (String c r ++ ".pdf") = Z.of_nat (String.length (String c r))).
  { rewrite rfind_append. cbn [rfind]. cbn. lia. }
  unfold splitext. rewrite (rfind_append sep pre), (rfind_append extsep pre), Hns, Hnd.
  replace (0 <=? -1)%Z with false by reflexivity.
  replace (0 <=? Z.of_nat (String.length (String c r)))%Z with true
    by (symmetry; apply Z.leb_le; lia).
  replace (rfind sep pre <? Z.of_nat (String.length pre) + Z.of_nat (String.length (String c r)))%Z
    with true by (symmetry; apply Z.ltb_lt; cbn [String.length]; lia).
  replace (Z.to_nat (Z.of_nat (String.length pre) + Z.of_nat (String.length (String c r))
                     - (rfind sep pre + 1)))
    with (S (String.length r)) by (cbn [String.length]; lia).
  cbn [has_stem andb]. rewrite Hsi, Nat2Z.id, get_append_length.
  rewrite append_cons. cbn [String.get].
  assert (Hc : Ascii.eqb c extsep = false).
  { cbn in Hdot. apply andb_prop in Hdot as [Hc _]. now apply negb_true_iff in Hc. }
  rewrite Hc. cbn [snd]. unfold slice_from.
  rewrite <- append_cons, <- append_assoc'.
  replace (Z.to_nat (Z.of_nat (String.length pre) + Z.of_nat (String.length (String c r))))
    with (String.length (pre ++ String c r)) by (rewrite length_append; lia).
  rewrite (length_append (pre ++ String c r) ".pdf").
  replace (String.length (pre ++ String c r) + String.length ".pdf"
           - String.length (pre ++ String c r))%nat
    with (String.length ".pdf") by lia.
  apply substring_append_length.
Qed.

(** ** The name of the stored upload (C10) *)

Lemma skills_path_pdf env w :
  (exists stem, skills_path env w = stem ++ ".pdf")
  /\ snd (splitext (skills_path env w)) = ".pdf".
Proof.
  unfold skills_path, skills_filename.
  destruct (path_join_relative (UPLOAD_FOLDER env) ("resume-" ++ str_int (now_ms w) ++ ".pdf")
              eq_refl) as [pre [E Hpre]].
  rewrite E. split.
  - exists (pre ++ "resume-" ++ str_int (now_ms w)). now rewrite !append_assoc'.
  - change ("resume-" ++ str_int (now_ms w) ++ ".pdf")
      with (String "r" ("esume-" ++ str_int (now_ms w) ++ ".pdf")).
    rewrite <- (append_assoc' "esume-"), <- append_cons.
    apply splitext_pdf_name; [ exact Hpre | | ];
      rewrite append_cons; cbn [no_char]; rewrite no_char_append;
      rewrite no_char_str_int by reflexivity; reflexivity.
Qed.

(** C10: whatever the upload is called, [extract_skills] stores it under
    [UPLOAD_FOLDER/resume-<clock in ms>.pdf], a path that ends in [.pdf]
    and whose extension, as [os.path.splitext] gives it, is [.pdf]. The
    [try] block runs in a world [saved] whose file system is the one of
    the request with the bytes of the upload under that path, and no
    other entry added or changed; the first thing it does is to call the
    extractor on that path, and the extractor is called on no other.
    When the handler is done the bytes are still under that path if
    [os.remove] failed, and nothing is if it succeeded. *)
Theorem skills_upload_is_named_pdf env request f w :
  uploaded (request_files request !! "resume") = Some f ->
  folder_ready env w ->
  os_error env (OpSave (skills_path env w)) = None ->
  let path := skills_path env w in
  path = path_join (UPLOAD_FOLDER env) ("resume-" ++ str_int (now_ms w) ++ ".pdf")
  /\ (exists stem, path = stem ++ ".pdf")
  /\ snd (splitext path) = ".pdf"
  /\ (exists saved,
        files saved = <[path := stream f]> (files w)
        /\ files saved !! path = Some (stream f)
        /\ extract_skills env request w =
             let r :=
               try_finally
                 (try_except
                    (bind (skills_try env path) (fun response => ret (inr response)))
                    skills_except)
                 (cleanup env path) saved in
             (match fst r with
              | Ok (inl response) => Ok response
              | Ok (inr response) => Ok (response, 200%Z)
              | Raise e => Raise e
              end, snd r))
  /\ match os_error env (OpRemove path) with
     | None => files (snd (extract_skills env request w)) !! path = None
     | Some _ => files (snd (extract_skills env request w)) !! path = Some (stream f)
     end
  /\ exists before tl,
       trace (snd (extract_skills env request w)) =
         (trace w ++ before ++ Call "file.save" [VStr path]
            :: Call "extract_resume_text" [VStr path] :: tl)%list
       /\ Forall (reads_only path) before
       /\ Forall (reads_only path) tl.
Proof.
  intros Hf Hr Hs path.
  split; [ reflexivity | ].
  destruct (skills_path_pdf env w) as [Hstem Hext].
  split; [ exact Hstem | ]. split; [ exact Hext | ].
  split.
  { destruct (extract_skills_stored env request f w Hf Hr Hs) as (w1 & Hw1 & E).
    exists (stored path f w1).
    assert (Hfiles : files (stored path f w1) = <[path := stream f]> (files w)).
    { cbn. now rewrite (skills_ready_files env w w1 Hw1). }
    split; [ exact Hfiles | ]. split; [ apply stored_lookup | exact E ]. }
  destruct (extract_skills_run env request f w Hf Hr Hs) as (w1 & Hw1 & _ & Hclean).
  destruct (skills_ready_trace env w w1 Hw1) as (before & Hbefore & Fbefore).
  destruct Hclean as (tl & rest & Htr & HF & _ & Hfinal).
  split.
  { fold path in Hfinal. destruct (os_error env (OpRemove path)); [ apply Hfinal | exact Hfinal ]. }
  exists before, (tl ++ rest)%list. repeat split; try assumption.
  fold path in Htr. rewrite Htr, Hbefore. now rewrite <- app_assoc.
Qed.

Lemma docx_upload_is_stored_as_pdf :
  snd (splitext "uploads/resume-1700000000123.pdf") = ".pdf"
  /\ (exists saved,
        files saved !! "uploads/resume-1700000000123.pdf" = Some (list_byte_of_string "PK")
        /\ files saved !! "uploads/cv.docx" = None)
  /\ files (snd (extract_skills (Double.env None Double.locked)
                   (Double.upload "cv.docx" "PK") Double.world))
       !! "uploads/resume-1700000000123.pdf" = Some (list_byte_of_string "PK")
  /\ exists before tl,
       trace (snd (extract_skills (Double.env None Double.locked)
                     (Double.upload "cv.docx" "PK") Double.world)) =
         (before ++ Call "file.save" [VStr "uploads/resume-1700000000123.pdf"]
            :: Call "extract_resume_text" [VStr "uploads/resume-1700000000123.pdf"] :: tl)%list.
Proof.
  destruct (skills_upload_is_named_pdf (Double.env None Double.locked)
              (Double.upload "cv.docx" "PK")
              {| filename := "cv.docx"; stream := list_byte_of_string "PK" |}
              Double.world eq_refl (or_introl eq_refl) eq_refl)
    as (_ & _ & Hext & (saved & Hfiles & Hthere & _) & Hfinal & before & tl & Htr & _).
  split; [ exact Hext | ].
  split; [ exists saved; split; [ exact Hthere | now rewrite Hfiles ] | ].
  split; [ exact Hfinal | ]. exists before, tl. exact Htr.
Defined.

(** ** The extension test (C8) *)

Section Extension.

Variable env : Env.

(** Every way the body of [extract_resume] can return. *)
Lemma resume_try_cases name ext path w :
  match fst (resume_try env name ext path w) with
  | Ok response => response = no_text \/ snd response = 200%Z
  | Raise _ => True
  end.
Proof.
  unfold resume_try, call_extract_resume_text, call_clean_extracted_text,
    call_extract_basic_info, bind, emit, lift. cbn.
  destruct (extract_resume_text env path (files w)) as [raw | e]; cbn; [ | exact I ].
  destruct (truthy raw); cbn; [ | now left ].
  destruct (clean_extracted_text env raw) as [c | e]; cbn; [ | exact I ].
  destruct (extract_basic_info env c raw) as [b | e]; cbn; [ | exact I ].
  destruct (resume_response name ext c b) as [r | e]; cbn; [ now right | exact I ].
Qed.

(** The unsupported-format rejection is the answer exactly when the
    lower-cased extension of the filename is not in the list. *)
Lemma extract_resume_unsupported_iff request f w :
  uploaded (request_files request !! "resume") = Some f ->
  fst (extract_resume env request w) = Ok unsupported_format
  <-> str_in (file_extension_of (filename f)) allowed_extensions = false.
Proof.
  intros Hf. split.
  - intros H. destruct (str_in _ _) eqn:Hx; [ exfalso | reflexivity ].
    destruct (os_error env (OpSave (upload_path env f))) as [e | ] eqn:Hs.
    + unfold extract_resume in H. rewrite Hf, Hx in H. cbn [negb] in H.
      fold (upload_path env f) in H.
      rewrite (bind_raise _ _ _ _ _ (file_save_fails env f _ w e Hs)) in H. discriminate H.
    + destruct (extract_resume_run env request f w Hf Hx Hs) as [Hfst _].
      rewrite Hfst in H. clear Hfst. unfold try_except in H.
      pose proof (resume_try_cases (filename f) (file_extension_of (filename f))
                    (upload_path env f) (stored (upload_path env f) f w)) as Hc.
      destruct (resume_try _ _ _ _ _) as [[r | e] w2]; cbn in Hc, H.
      * injection H as ->. destruct Hc as [Hc | Hc]; discriminate Hc.
      * discriminate H.
  - intros Hx. now rewrite (extract_resume_rejects_first env request f w Hf Hx).
Qed.

End Extension.

(** C8: [extract_resume] decides on the extension of the filename alone,
    whatever the case of its letters: two uploads whose filenames differ
    only in case are both turned away as unsupported or both let through,
    whatever their bytes, the worlds and the collaborators; and an upload
    is turned away exactly when the extension of its lower-cased filename
    is not one of [.pdf], [.docx], [.doc]. *)
Theorem extension_test_ignores_case env env' request request' f f' w w' :
  uploaded (request_files request !! "resume") = Some f ->
  uploaded (request_files request' !! "resume") = Some f' ->
  lower (filename f) = lower (filename f') ->
  (fst (extract_resume env request w) = Ok unsupported_format
   <-> fst (extract_resume env' request' w') = Ok unsupported_format)
  /\ (fst (extract_resume env request w) = Ok unsupported_format
      <-> str_in (snd (splitext (lower (filename f)))) allowed_extensions = false).
Proof.
  intros Hf Hf' Hcase.
  rewrite (extract_resume_unsupported_iff env request f w Hf).
  rewrite (extract_resume_unsupported_iff env' request' f' w' Hf').
  rewrite <- (file_extension_lower (filename f)), <- (file_extension_lower (filename f')).
  rewrite Hcase. split; [ reflexivity | ].
  rewrite <- Hcase. unfold file_extension_of.
  rewrite splitext_lower. cbn [snd]. now rewrite lower_idempotent.
Qed.

Lemma upper_case_pdf_is_accepted :
  (fst (extract_resume (Double.env None Double.no_os_error)
          (Double.upload "CV.Pdf" "%PDF-1.7") Double.world) = Ok unsupported_format
   <-> fst (extract_resume (Double.broken None)
              (Double.upload "cv.pdf" "") Double.world) = Ok unsupported_format)
  /\ (fst (extract_resume (Double.env None Double.no_os_error)
             (Double.upload "CV.Pdf" "%PDF-1.7") Double.world) = Ok unsupported_format
      <-> str_in (snd (splitext (lower "CV.Pdf"))) allowed_extensions = false).
Proof.
  apply (extension_test_ignores_case (Double.env None Double.no_os_error) (Double.broken None)
           (Double.upload "CV.Pdf" "%PDF-1.7") (Double.upload "cv.pdf" "")
           {| filename := "CV.Pdf"; stream := list_byte_of_string "%PDF-1.7" |}
           {| filename := "cv.pdf"; stream := list_byte_of_string "" |}
           Double.world Double.world); reflexivity.
Defined.

(** ** Examples *)

Example splitext_pdf : splitext "uploads/cv.v2.PDF" = ("uploads/cv.v2", ".PDF").
Proof. reflexivity. Qed.

Example splitext_hidden : splitext "uploads/.bashrc" = ("uploads/.bashrc", "").
Proof. reflexivity. Qed.

Example splitext_dir_dot : splitext "up.loads/cv" = ("up.loads/cv", "").
Proof. reflexivity. Qed.

Example path_join_abs : path_join "uploads" "/etc/passwd" = "/etc/passwd".
Proof. reflexivity. Qed.

Example path_join_rel : path_join "uploads" "cv.pdf" = "uploads/cv.pdf".
Proof. reflexivity. Qed.

Example lower_mixed : lower ".DocX" = ".docx".
Proof. reflexivity. Qed.

Example allowed_mixed_case :
  map (fun name => str_in (file_extension_of name) allowed_extensions)
    ["cv.PDF"; "cv.Docx"; "cv.doc"; "cv.txt"; "cv"; ".pdf"; "cv.pdf.exe"]
  = [true; true; true; false; false; false; false].
Proof. reflexivity. Qed.

Example clean_spaces : clean "  Jane   Doe
 Python " = "Jane Doe Python".
Proof. reflexivity. Qed.

Example clean_blank : clean "   " = "".
Proof. reflexivity. Qed.

Example process_blank_upload :
  fst (process_resume (Double.env None Double.no_os_error) (Double.upload "cv.pdf" "   ")
         Double.world)
  = Ok (process_response
          (profile_view (VStr "")
             (VDict
                [("email", VNone);
                 ("skills", VList [VStr "python"]);
                 ("skills_summary", VDict [("programming", VList [VStr "python"])]);
                 ("experience_keywords", VList [VStr "experience"; VStr "experience"]);
                 ("education_keywords", VList [])]))
          VNone (VStr "backend engineer") VNone [], 200%Z).
Proof. reflexivity. Qed.

(** * Further properties of the upload handlers *)

(** ** The paths a handler saves to and removes *)

Lemma writes_only_print path args : writes_only path (Print args).
Proof. intros fn a H. discriminate H. Qed.

Lemma writes_only_other path fn args :
  is_file_change fn = false -> writes_only path (Call fn args).
Proof. intros Hne fn' a H Hfn. injection H as <- _. congruence. Qed.

Lemma writes_only_here path fn : writes_only path (Call fn [VStr path]).
Proof. intros fn' a H _. now injection H as _ <-. Qed.

Ltac silent_using known :=
  repeat first
    [ known
    | apply appends_ret | apply appends_raise | apply appends_lift | apply appends_assign
    | apply appends_bind; [ | intros ? ]
    | apply appends_try_except; [ | intros ? ]
    | apply appends_in_world | apply appends_with_local | apply appends_if
    | apply appends_emit | apply appends_print
    | apply writes_only_print
    | apply writes_only_other; reflexivity ].

Section Logs.

Variable env : Env.
Variable path : string.

#[local] Abbreviation silent := (appends (fun w : World => w) (writes_only path)).

Lemma silent_call_extract p : silent (call_extract_resume_text env p).
Proof.
  unfold call_extract_resume_text. apply appends_bind; [ silent_using fail | intros _ ].
  intros w. exists []. cbn. now rewrite extend_nil.
Qed.

Lemma silent_gemini_call fn f a b c :
  is_file_change fn = false -> silent (gemini_call fn f a b c).
Proof. intros H. unfold gemini_call. silent_using fail. now apply writes_only_other. Qed.

Lemma silent_ai_insights basic_info clean_text preferences :
  silent (ai_insights env basic_info clean_text preferences).
Proof.
  unfold ai_insights. destruct (gemini_service env) as [g | ]; [ | silent_using fail ].
  apply appends_with_local, appends_try_except; [ | intros e; silent_using fail ].
  unfold ai_calls. silent_using ltac:(apply silent_gemini_call; reflexivity).
Qed.

Lemma silent_process_try industries goals location p :
  silent (process_try env industries goals location p).
Proof.
  unfold process_try, call_clean_extracted_text, call_extract_basic_info.
  silent_using ltac:(first [ apply silent_call_extract | apply silent_ai_insights ]).
Qed.

Lemma silent_skills_try p : silent (skills_try env p).
Proof.
  unfold skills_try, call_clean_extracted_text, call_extract_basic_info.
  silent_using ltac:(apply silent_call_extract).
Qed.

Lemma silent_resume_try name ext p : silent (resume_try env name ext p).
Proof.
  unfold resume_try, call_clean_extracted_text, call_extract_basic_info.
  silent_using ltac:(apply silent_call_extract).
Qed.

Lemma logs_appends {A} (m : Eff World A) : silent m -> logs (writes_only path) m.
Proof. intros H w. destruct (H w) as [new [E F]]. exists new. now rewrite E. Qed.

Lemma logs_bind {A B} P (m : Eff World A) (k : A -> Eff World B) :
  logs P m -> (forall a, logs P (k a)) -> logs P (bind m k).
Proof.
  intros Hm Hk w. unfold bind. destruct (Hm w) as [l1 [E1 F1]].
  destruct (m w) as [[a | e] w1]; cbn in E1.
  - destruct (Hk a w1) as [l2 [E2 F2]]. exists (l1 ++ l2)%list. split.
    + now rewrite E2, E1, app_assoc.
    + now apply Forall_app.
  - exists l1. now split.
Qed.

Lemma logs_try_except {A} P (body : Eff World A) handler :
  logs P body -> (forall e, logs P (handler e)) -> logs P (try_except body handler).
Proof.
  intros Hm Hk w. unfold try_except. destruct (Hm w) as [l1 [E1 F1]].
  destruct (body w) as [[a | e] w1]; cbn in E1.
  - exists l1. now split.
  - destruct (Hk e w1) as [l2 [E2 F2]]. exists (l1 ++ l2)%list. split.
    + now rewrite E2, E1, app_assoc.
    + now apply Forall_app.
Qed.

Lemma logs_try_finally {A} P (body : Eff World A) final :
  logs P body -> logs P final -> logs P (try_finally body final).
Proof.
  intros Hm Hf w. unfold try_finally. destruct (Hm w) as [l1 [E1 F1]].
  destruct (body w) as [r w1]. cbn in E1. destruct (Hf w1) as [l2 [E2 F2]].
  exists (l1 ++ l2)%list. split; [ | now apply Forall_app ].
  destruct (final w1) as [[u | e] w2]; cbn in E2 |- *; now rewrite E2, E1, app_assoc.
Qed.

Lemma logs_ret {A} P (a : A) : logs P (ret a : Eff World A).
Proof. intros w. exists []. cbn. now rewrite app_nil_r. Qed.

Lemma logs_file_save f : logs (writes_only path) (file_save env f path).
Proof.
  intros w. exists [Call "file.save" [VStr path]]. split.
  - unfold file_save, bind, emit. cbn. now destruct (os_error env (OpSave path)).
  - repeat constructor. apply writes_only_here.
Qed.

Lemma logs_cleanup : logs (writes_only path) (cleanup env path).
Proof.
  intros w. unfold cleanup, bind, os_path_exists, try_except, os_remove, bind, emit,
    print, emit. cbn.
  destruct (path_exists path w); cbn; [ | exists []; now rewrite app_nil_r ].
  destruct (files w !! path); cbn.
  - destruct (os_error env (OpRemove path)); cbn.
    + eexists. split; [ now rewrite <- app_assoc | ].
      repeat constructor; [ apply writes_only_here | apply writes_only_print ].
    + eexists. split; [ reflexivity | ]. repeat constructor. apply writes_only_here.
  - eexists. split; [ now rewrite <- app_assoc | ].
    repeat constructor; [ apply writes_only_here | apply writes_only_print ].
Qed.

(** The guarded statement of a handler, its upload stored under [path]. *)
Lemma logs_guarded {A} (body : Eff World A) handler :
  silent body -> (forall e, silent (handler e)) ->
  logs (writes_only path) (try_finally (try_except body handler) (cleanup env path)).
Proof.
  intros Hb Hh. apply logs_try_finally; [ | apply logs_cleanup ].
  apply logs_try_except; [ now apply logs_appends | ].
  intros e. now apply logs_appends.
Qed.

End Logs.



(** ** Requests without an upload *)

(** A request without a part named [resume], or whose part has no
    filename, is answered with status 400 by each of the three handlers,
    and nothing else happens: no file is stored, nothing is printed or
    called. *)
Theorem missing_upload_is_rejected env request w :
  uploaded (request_files request !! "resume") = None ->
  process_resume env request w = (Ok (jsonify_error "No resume uploaded" 400), w)
  /\ extract_skills env request w = (Ok (jsonify_error "No resume file provided" 400), w)
  /\ extract_resume env request w = (Ok (jsonify_error "No resume uploaded" 400), w).
Proof.
  intros H. unfold process_resume, extract_skills, extract_resume. rewrite H.
  repeat split.
Qed.

Lemma nameless_upload_is_rejected :
  process_resume (Double.env None Double.no_os_error) (Double.upload "" "Python") Double.world
    = (Ok (jsonify_error "No resume uploaded" 400), Double.world)
  /\ extract_skills (Double.env None Double.no_os_error) (Double.upload "" "Python") Double.world
     = (Ok (jsonify_error "No resume file provided" 400), Double.world)
  /\ extract_resume (Double.env None Double.no_os_error) (Double.upload "" "Python") Double.world
     = (Ok (jsonify_error "No resume uploaded" 400), Double.world).
Proof.
  apply (missing_upload_is_rejected (Double.env None Double.no_os_error)
           (Double.upload "" "Python") Double.world).
  reflexivity.
Defined.

(** ** A failing [file.save] *)



(** ** Filenames that leave the upload folder *)

Lemma startswith_sep_prefix name : startswith "/" name = true -> startswith_sep name = true.
Proof. destruct name as [ | c r]; cbn; [ discriminate | ]. now rewrite andb_true_r, Ascii.eqb_sym. Qed.

(** The filename of the upload is joined to [UPLOAD_FOLDER] as it comes:
    a filename that starts with [/] is the path itself, whatever the
    folder, so [/process] stores the upload there, calls the extractor on
    it, and, when [os.remove] succeeds, leaves no file there - a file
    that was there before is lost. *)
Theorem absolute_filename_leaves_upload_folder env request f w :
  uploaded (request_files request !! "resume") = Some f ->
  startswith "/" (filename f) = true ->
  os_error env (OpSave (filename f)) = None ->
  os_error env (OpRemove (filename f)) = None ->
  upload_path env f = filename f
  /\ Call "file.save" [VStr (filename f)] ∈ trace (snd (process_resume env request w))
  /\ Call "extract_resume_text" [VStr (filename f)] ∈ trace (snd (process_resume env request w))
  /\ files (snd (process_resume env request w)) !! filename f = None.
Proof.
  intros Hf Habs Hs Hr.
  assert (Hp : upload_path env f = filename f).
  { unfold upload_path, path_join. now rewrite (startswith_sep_prefix _ Habs). }
  split; [ exact Hp | ]. rewrite <- Hp in Hs, Hr.
  destruct (process_resume_run env request f w Hf Hs) as [_ (tl & rest & Htr & _ & _ & Hgone)].
  rewrite Hr in Hgone. rewrite Hp in Htr, Hgone.
  repeat split; [ rewrite Htr; set_solver | rewrite Htr; set_solver | exact Hgone ].
Qed.

Lemma upload_named_as_config_deletes_it :
  files Fixture.world !! "/srv/app/config.pdf" = Some (list_byte_of_string "settings")
  /\ files (snd (process_resume (Double.env None Double.no_os_error)
                   (Double.upload "/srv/app/config.pdf" "Python") Fixture.world))
     !! "/srv/app/config.pdf" = None.
Proof.
  split; [ reflexivity | ].
  apply (absolute_filename_leaves_upload_folder (Double.env None Double.no_os_error)
           (Double.upload "/srv/app/config.pdf" "Python")
           {| filename := "/srv/app/config.pdf"; stream := list_byte_of_string "Python" |}
           Fixture.world); reflexivity.
Defined.

(** * The recommendation block of [/process], call by call *)

Lemma omap_length {A B} (f : A -> outcome B) l r : omap f l = Ok r -> length r = length l.
Proof.
  revert r. induction l as [ | x l IH]; intros r; cbn.
  - now intros [= <-].
  - unfold obind. destruct (f x) as [y | e]; [ | discriminate ].
    destruct (omap f l) as [ys | e]; [ | discriminate ].
    intros [= <-]. cbn. now rewrite (IH ys eq_refl).
Qed.

(** The skill suggestions are asked for a list of at most three role
    titles, whatever the career recommendations look like. *)
Theorem target_roles_at_most_three career_recs roles :
  target_roles career_recs = Ok roles ->
  exists titles, roles = VList titles /\ (length titles <= 3)%nat.
Proof.
  unfold target_roles. destruct (truthy career_recs).
  2:{ intros [= <-]. eexists. split; [ reflexivity | cbn; lia ]. }
  unfold obind.
  destruct (py_get career_recs "recommended_roles" (VList [])) as [rs | e]; [ | discriminate ].
  destruct rs as [ | | | s | l | d]; cbn; try discriminate.
  - destruct (substring 0 3 s) as [ | ch rest]; cbn.
    + intros [= <-]. exists []. split; [ reflexivity | cbn; lia ].
    + discriminate.
  - destruct (omap _ (firstn 3 l)) as [titles | e] eqn:E; [ | discriminate ].
    intros [= <-]. exists titles. split; [ reflexivity | ].
    rewrite (omap_length _ _ _ E), length_firstn. lia.
Qed.

Lemma five_roles_give_three_titles :
  exists titles,
    target_roles
      (VDict [("recommended_roles",
                VList [VDict [("title", VStr "a")]; VDict [("title", VStr "b")];
                       VDict []; VDict [("title", VStr "d")]; VDict [("title", VStr "e")]])])
    = Ok (VList titles)
    /\ titles = [VStr "a"; VStr "b"; VStr ""]
    /\ (length titles <= 3)%nat.
Proof.
  destruct (target_roles_at_most_three
              (VDict [("recommended_roles",
                        VList [VDict [("title", VStr "a")]; VDict [("title", VStr "b")];
                               VDict []; VDict [("title", VStr "d")];
                               VDict [("title", VStr "e")]])])
              (VList [VStr "a"; VStr "b"; VStr ""]) eq_refl) as [titles [E Hlen]].
  exists titles. injection E as <-. repeat split. exact Hlen.
Defined.

Section Block.

Variable env : Env.
Variable service : GeminiService.
Hypothesis Hservice : gemini_service env = Some service.

Variables clean_text preferences : value.
Variable profile : dict.

#[local] Abbreviation basic_info := (VDict profile).
#[local] Abbreviation skills := (field (VDict profile) "skills" (VList [])).
#[local] Abbreviation summary := (field (VDict profile) "skills_summary" (VDict [])).

(** When the four calls return, [ai_insights] holds their four results
    under the four keys, in the order of the calls, and the service has
    been called exactly four times: for the recommendations, then with
    the titles of the recommended roles, then with the cleaned text, then
    with the title of the first role. *)
Lemma insights_complete w career_recs roles suggestions analysis role path :
  generate_career_recommendations service summary preferences (VStr "intermediate")
    = Ok career_recs ->
  target_roles career_recs = Ok roles ->
  suggest_skill_improvements service skills roles preferences = Ok suggestions ->
  analyze_resume_gaps service summary preferences clean_text = Ok analysis ->
  top_role career_recs = Ok role ->
  generate_learning_path service skills role (VStr "balanced") = Ok path ->
  ai_insights env basic_info clean_text preferences w =
    (Ok [("career_recommendations", career_recs);
         ("skill_improvements", suggestions);
         ("resume_analysis", analysis);
         ("learning_path", path)],
     extend w
       [Call "generate_career_recommendations" [summary; preferences; VStr "intermediate"];
        Call "suggest_skill_improvements" [skills; roles; preferences];
        Call "analyze_resume_gaps" [summary; preferences; clean_text];
        Call "generate_learning_path" [skills; role; VStr "balanced"];
        Print [VStr "AI recommendations generated successfully"]]).
Proof.
  intros H1 H2 H3 H4 H5 H6. unfold field in *.
  unfold ai_insights. rewrite Hservice.
  unfold with_local, try_except, ai_calls, bind, in_world, gemini_call, bind, emit, lift,
    assign, print, emit. cbn.
  rewrite H1. cbn. rewrite H2. cbn. rewrite H3. cbn. rewrite H4. cbn. rewrite H5. cbn.
  rewrite H6. cbn. unfold extend. now rewrite <- !app_assoc.
Qed.

(** When a later call raises, what the earlier calls returned stays in
    [ai_insights], the message joins it under ['error'], and the calls
    after the failing one are not made. *)
Lemma insights_partial w career_recs roles e :
  generate_career_recommendations service summary preferences (VStr "intermediate")
    = Ok career_recs ->
  target_roles career_recs = Ok roles ->
  suggest_skill_improvements service skills roles preferences = Raise e ->
  ai_insights env basic_info clean_text preferences w =
    (Ok [("career_recommendations", career_recs); ("error", VStr (str_exn e))],
     extend w
       [Call "generate_career_recommendations" [summary; preferences; VStr "intermediate"];
        Call "suggest_skill_improvements" [skills; roles; preferences];
        Print [VStr ("Error generating AI recommendations: " ++ str_exn e)]]).
Proof.
  intros H1 H2 H3. unfold field in *.
  unfold ai_insights. rewrite Hservice.
  unfold with_local, try_except, ai_calls, bind, in_world, gemini_call, bind, emit, lift,
    assign, print, emit. cbn.
  rewrite H1. cbn. rewrite H2. cbn. rewrite H3. cbn.
  unfold extend. now rewrite <- !app_assoc.
Qed.

(** Recommendations with an empty list of roles: the first three calls
    are made, then reading the title of the first role fails, so the
    learning path is never asked for and ['error'] holds the message of
    the [IndexError], though no call of the service failed. *)
Lemma insights_without_roles w recs suggestions analysis :
  dict_lookup "recommended_roles" recs = Some (VList []) ->
  generate_career_recommendations service summary preferences (VStr "intermediate")
    = Ok (VDict recs) ->
  suggest_skill_improvements service skills (VList []) preferences = Ok suggestions ->
  analyze_resume_gaps service summary preferences clean_text = Ok analysis ->
  ai_insights env basic_info clean_text preferences w =
    (Ok [("career_recommendations", VDict recs);
         ("skill_improvements", suggestions);
         ("resume_analysis", analysis);
         ("error", VStr "list index out of range")],
     extend w
       [Call "generate_career_recommendations" [summary; preferences; VStr "intermediate"];
        Call "suggest_skill_improvements" [skills; VList []; preferences];
        Call "analyze_resume_gaps" [summary; preferences; clean_text];
        Print [VStr "Error generating AI recommendations: list index out of range"]]).
Proof.
  intros Hroles H1 H3 H4. unfold field in *.
  assert (Htruthy : truthy (VDict recs) = true).
  { destruct recs; [ discriminate Hroles | reflexivity ]. }
  assert (Htarget : target_roles (VDict recs) = Ok (VList [])).
  { unfold target_roles. rewrite Htruthy. cbn. now rewrite Hroles. }
  assert (Htop : top_role (VDict recs) = Raise (Exception "list index out of range")).
  { unfold top_role. rewrite Htruthy. cbn. now rewrite Hroles. }
  unfold ai_insights. rewrite Hservice.
  unfold with_local, try_except, ai_calls, bind, in_world, gemini_call, bind, emit, lift,
    assign, print, emit. cbn.
  rewrite H1. cbn. rewrite Htarget. cbn. rewrite H3. cbn. rewrite H4. cbn. rewrite Htop. cbn.
  unfold extend. now rewrite <- !app_assoc.
Qed.

End Block.

Lemma insights_from_online_service :
  fst (ai_insights (Double.env (Some Fixture.online) Double.no_os_error)
         (VDict [("skills", VList [VStr "python"])]) (VStr "Python developer") (VDict [])
         Double.world)
  = Ok [("career_recommendations",
          VDict [("recommended_roles",
                   VList [VDict [("title", VStr "Backend Developer")];
                          VDict [("title", VStr "Data Engineer")]])]);
        ("skill_improvements",
          VDict [("for", VList [VStr "Backend Developer"; VStr "Data Engineer"])]);
        ("resume_analysis", VDict [("gaps", VList [])]);
        ("learning_path", VDict [("towards", VStr "Backend Developer")])].
Proof.
  exact (f_equal fst
           (insights_complete (Double.env (Some Fixture.online) Double.no_os_error)
              Fixture.online eq_refl (VStr "Python developer") (VDict [])
              [("skills", VList [VStr "python"])] Double.world
              _ (VList [VStr "Backend Developer"; VStr "Data Engineer"]) _ _
              (VStr "Backend Developer") _
              eq_refl eq_refl eq_refl eq_refl eq_refl eq_refl)).
Defined.

Lemma insights_from_flaky_service :
  fst (ai_insights (Double.env (Some Fixture.flaky) Double.no_os_error)
         (VDict [("skills", VList [VStr "python"])]) (VStr "Python developer") (VDict [])
         Double.world)
  = Ok [("career_recommendations",
          VDict [("recommended_roles", VList [VDict [("title", VStr "Backend Developer")]])]);
        ("error", VStr "429 quota exceeded")].
Proof.
  exact (f_equal fst
           (insights_partial (Double.env (Some Fixture.flaky) Double.no_os_error)
              Fixture.flaky eq_refl (VStr "Python developer") (VDict [])
              [("skills", VList [VStr "python"])] Double.world
              _ (VList [VStr "Backend Developer"]) (Exception "429 quota exceeded")
              eq_refl eq_refl eq_refl)).
Defined.

Lemma insights_from_service_without_roles :
  fst (ai_insights (Double.env (Some Fixture.no_roles) Double.no_os_error)
         (VDict [("skills", VList [VStr "python"])]) (VStr "Python developer") (VDict [])
         Double.world)
  = Ok [("career_recommendations", VDict [("recommended_roles", VList [])]);
        ("skill_improvements", VDict [("for", VList [])]);
        ("resume_analysis", VDict [("gaps", VList [])]);
        ("error", VStr "list index out of range")].
Proof.
  exact (f_equal fst
           (insights_without_roles (Double.env (Some Fixture.no_roles) Double.no_os_error)
              Fixture.no_roles eq_refl (VStr "Python developer") (VDict [])
              [("skills", VList [VStr "python"])] Double.world
              [("recommended_roles", VList [])] _ _
              eq_refl eq_refl eq_refl eq_refl)).
Defined.

(** ** The two fall-back titles *)

Example fallback_titles_differ :
  target_roles (VDict []) = Ok (VList [VStr software_developer_nbsp])
  /\ top_role (VDict []) = Ok (VStr "Software Developer")
  /\ String.length software_developer_nbsp = String.length "Software Developer"
  /\ String.get 8 software_developer_nbsp = Some "160"%char
  /\ String.get 8 "Software Developer" = Some " "%char.
Proof. repeat split. Qed.

Example insights_for_empty_recommendations :
  ai_insights (Double.env (Some Fixture.no_recommendations) Double.no_os_error)
    (VDict [("skills", VList [VStr "python"])]) (VStr "Python developer") (VDict [])
    Double.world
  = (Ok [("career_recommendations", VDict []);
         ("skill_improvements", VDict [("for", VList [VStr software_developer_nbsp])]);
         ("resume_analysis", VDict [("gaps", VList [])]);
         ("learning_path", VDict [("towards", VStr "Software Developer")])],
     extend Double.world
       [Call "generate_career_recommendations" [VDict []; VDict []; VStr "intermediate"];
        Call "suggest_skill_improvements"
          [VList [VStr "python"]; VList [VStr software_developer_nbsp]; VDict []];
        Call "analyze_resume_gaps" [VDict []; VDict []; VStr "Python developer"];
        Call "generate_learning_path"
          [VList [VStr "python"]; VStr "Software Developer"; VStr "balanced"];
        Print [VStr "AI recommendations generated successfully"]]).
Proof. vm_compute. reflexivity. Qed.

(** * The [/ai] routes *)

Ltac each_route Hin :=
  repeat (destruct Hin as [<- | Hin]); [ .. | destruct Hin ].

Ltac run_view :=
  unfold career_recommendations_route, skill_analysis_route, resume_analysis_route,
    learning_path_route;
  cbn [route_view route_method route_run route_key route_failure];
  unfold Ai.get_career_recommendations, Ai.analyze_skills, Ai.analyze_resume_ai,
    Ai.generate_learning_path, Ai.unavailable, Ai.no_data, jsonify_error.

(** A route answers 503 "AI service not available", without reading the
    body and without a trace, exactly when start-up left no service. *)
Theorem unavailable_iff_no_service env route request w :
  In route (routes env) ->
  (gemini_service env = None <-> route_view route request w = (Ok Ai.unavailable, w)).
Proof.
  intros Hin. unfold routes in Hin. each_route Hin; run_view.
  all: destruct (gemini_service env) as [service | ]; cbn;
    (split; [ intros H; try discriminate H; reflexivity | intros H; try reflexivity ]).
  all: exfalso; revert H;
    unfold bind, lift, try_except, gemini_call, bind, emit, lift, print, emit, ret; cbn;
    destruct (get_json request) as [data | e]; cbn; try discriminate;
    destruct (truthy data); cbn; try discriminate;
    destruct data; cbn; try discriminate.
  all: repeat match goal with
       | |- context [if negb (truthy ?v) then _ else _] => destruct (truthy v); cbn
       | |- context [match ?f ?s ?a ?b ?c with Ok _ => _ | Raise _ => _ end] =>
           destruct (f s a b c); cbn
       end; try discriminate.
Qed.

Lemma unreadable_body_gets_503_without_service :
  Ai.generate_learning_path (Double.env None Double.no_os_error)
    {| get_json := Raise (Exception "400 Bad Request") |} Fixture.world
  = (Ok (VDict [("error", VStr "AI service not available")], 503%Z), Fixture.world).
Proof.
  apply (proj1 (unavailable_iff_no_service (Double.env None Double.no_os_error)
                  (learning_path_route (Double.env None Double.no_os_error))
                  {| get_json := Raise (Exception "400 Bad Request") |} Fixture.world
                  (or_intror (or_intror (or_intror (or_introl eq_refl)))))).
  reflexivity.
Defined.

Ltac unfold_effects :=
  unfold bind, lift, try_except, gemini_call, bind, emit, lift, print, emit, ret.

Ltac split_view :=
  repeat match goal with
    | |- context [if negb (truthy ?v) then _ else _] =>
        let E := fresh "Etruthy" in destruct (truthy v) eqn:E; cbn
    | |- context [match ?f ?s ?a ?b ?c with Ok _ => _ | Raise _ => _ end] =>
        let E := fresh "Ecall" in destruct (f s a b c) eqn:E; cbn
    end.

(** With a service, a body that is not a JSON object but counts as true
    (a non-empty array or string, a number other than 0, [true]) is not
    rejected with a 400: the [data.get] that stands before the [try]
    raises [AttributeError], and the view lets it escape before the
    service is called or anything is printed. *)
Theorem non_object_body_escapes env service route request data w :
  gemini_service env = Some service -> In route (routes env) ->
  get_json request = Ok data -> truthy data = true -> is_dict data = false ->
  route_view route request w =
    (Raise (Exception ("'" ++ type_name data ++ "' object has no attribute 'get'")), w).
Proof.
  intros Hservice Hin Hbody Htruthy Hdict. unfold routes in Hin.
  each_route Hin; run_view; rewrite Hservice; unfold_effects; rewrite Hbody; cbn;
    rewrite Htruthy; cbn; destruct data; try discriminate Hdict; reflexivity.
Qed.

Lemma array_body_escapes :
  Ai.analyze_skills (Double.env (Some Fixture.online) Double.no_os_error)
    (Fixture.body (VList [VStr "python"])) Fixture.world
  = (Raise (Exception "'list' object has no attribute 'get'"), Fixture.world).
Proof.
  exact (non_object_body_escapes (Double.env (Some Fixture.online) Double.no_os_error)
           Fixture.online (skill_analysis_route (Double.env (Some Fixture.online) Double.no_os_error))
           (Fixture.body (VList [VStr "python"])) (VList [VStr "python"])
           Fixture.world eq_refl (or_intror (or_introl eq_refl)) eq_refl eq_refl eq_refl).
Defined.

(** With a service, every answer of a route is of one of three kinds.
    400: nothing was printed and the service was not called. 200: the
    service was called once, through the method of the route, and the
    body carries what it returned under the key of the route. 500: that
    one call raised, and the body carries the message of the exception
    after the words of the route. *)
Theorem answers_classified env service route request w body status :
  gemini_service env = Some service -> In route (routes env) ->
  fst (route_view route request w) = Ok (body, status) ->
  exists new,
    snd (route_view route request w) = extend w new /\
    ((status = 400%Z /\ new = [] /\ exists msg, body = VDict [("error", VStr msg)]) \/
     exists a b c,
       service_calls new = [Call (route_method route) [a; b; c]] /\
       ((status = 200%Z /\
         exists r, route_run route service a b c = Ok r /\
                   body = VDict [("success", VBool true); (route_key route, r)]) \/
        (status = 500%Z /\
         exists e, route_run route service a b c = Raise e /\
                   body = VDict [("error", VStr (route_failure route ++ str_exn e))]))).
Proof.
  intros Hservice Hin. unfold routes in Hin.
  each_route Hin; run_view; rewrite Hservice; unfold_effects; cbn.
  all: destruct (get_json request) as [data | e0]; cbn; [ | discriminate ].
  all: destruct (truthy data) eqn:Edata; cbn;
    [ | intros [= <- <-]; exists []; split; [ now rewrite extend_nil | left; eauto ] ].
  all: destruct data; cbn; try discriminate.
  all: split_view; intros [= <- <-].
  all: first
    [ exists []; split; [ now rewrite extend_nil | left; eauto ]
    | eexists; split;
      [ unfold extend; cbn; rewrite <- ?app_assoc; reflexivity
      | right; do 3 eexists; split;
        [ reflexivity
        | first [ left; split; [ reflexivity | eexists; split; [ eassumption | reflexivity ] ]
                | right; split; [ reflexivity | eexists; split; [ eassumption | reflexivity ] ] ] ] ] ].
Qed.

Lemma skill_analysis_of_flaky_service_is_500 :
  exists new,
    snd (Ai.analyze_skills (Double.env (Some Fixture.flaky) Double.no_os_error)
           (Fixture.body (VDict [("current_skills", VList [VStr "python"])])) Fixture.world)
    = extend Fixture.world new /\
    ((500 = 400 /\ new = [] /\
      exists msg, VDict [("error", VStr "Error analyzing skills: 429 quota exceeded")]
                  = VDict [("error", VStr msg)]) \/
     exists a b c,
       service_calls new = [Call "suggest_skill_improvements" [a; b; c]] /\
       ((500 = 200 /\
         exists r, suggest_skill_improvements Fixture.flaky a b c = Ok r /\
                   VDict [("error", VStr "Error analyzing skills: 429 quota exceeded")]
                   = VDict [("success", VBool true); ("analysis", r)]) \/
        (500 = 500 /\
         exists e, suggest_skill_improvements Fixture.flaky a b c = Raise e /\
                   VDict [("error", VStr "Error analyzing skills: 429 quota exceeded")]
                   = VDict [("error", VStr ("Error analyzing skills: " ++ str_exn e))])))%Z.
Proof.
  exact (answers_classified (Double.env (Some Fixture.flaky) Double.no_os_error) Fixture.flaky
           (skill_analysis_route (Double.env (Some Fixture.flaky) Double.no_os_error))
           (Fixture.body (VDict [("current_skills", VList [VStr "python"])])) Fixture.world
           (VDict [("error", VStr "Error analyzing skills: 429 quota exceeded")]) 500%Z
           eq_refl (or_intror (or_introl eq_refl)) eq_refl).
Defined.

(** With a service and a body that is a non-empty object,
    [/ai/resume-analysis] answers 400 "Resume text is required", and
    [/ai/learning-path] 400 "Target role is required", exactly when the
    field is missing or counts as false; the service is not called then.
    An empty object never gets that far: it is "No data provided". *)
Theorem required_field_is_checked env service request d w :
  gemini_service env = Some service -> get_json request = Ok (VDict d) ->
  (d = [] ->
     Ai.analyze_resume_ai env request w = (Ok Ai.no_data, w) /\
     Ai.generate_learning_path env request w = (Ok Ai.no_data, w)) /\
  (d <> [] ->
     (Ai.analyze_resume_ai env request w = (Ok (jsonify_error "Resume text is required" 400), w)
      <-> truthy (field (VDict d) "resume_text" (VStr "")) = false) /\
     (Ai.generate_learning_path env request w
        = (Ok (jsonify_error "Target role is required" 400), w)
      <-> truthy (field (VDict d) "target_role" (VStr "")) = false)).
Proof.
  intros Hservice Hbody. split.
  - intros ->. run_view. rewrite Hservice. unfold_effects. rewrite Hbody. now cbn.
  - intros Hd. assert (Htruthy : truthy (VDict d) = true) by (destruct d; [ easy | reflexivity ]).
    unfold field. run_view. rewrite Hservice. unfold_effects. rewrite Hbody.
    cbn -[truthy dict_lookup]. rewrite Htruthy. cbn -[truthy dict_lookup].
    split.
    + destruct (truthy match dict_lookup "resume_text" d with Some x => x | None => VStr "" end);
        cbn -[truthy dict_lookup]; [ | easy ].
      split; [ | discriminate ].
      split_view; discriminate.
    + destruct (truthy match dict_lookup "target_role" d with Some x => x | None => VStr "" end);
        cbn -[truthy dict_lookup]; [ | easy ].
      split; [ | discriminate ].
      split_view; discriminate.
Qed.

Lemma blank_resume_text_is_rejected :
  Ai.analyze_resume_ai (Double.env (Some Fixture.online) Double.no_os_error)
    (Fixture.body (VDict [("resume_text", VStr ""); ("target_role", VInt 0)])) Fixture.world
    = (Ok (VDict [("error", VStr "Resume text is required")], 400%Z), Fixture.world)
  /\ Ai.generate_learning_path (Double.env (Some Fixture.online) Double.no_os_error)
    (Fixture.body (VDict [("resume_text", VStr ""); ("target_role", VInt 0)])) Fixture.world
    = (Ok (VDict [("error", VStr "Target role is required")], 400%Z), Fixture.world).
Proof.
  destruct (required_field_is_checked (Double.env (Some Fixture.online) Double.no_os_error)
              Fixture.online
              (Fixture.body (VDict [("resume_text", VStr ""); ("target_role", VInt 0)]))
              [("resume_text", VStr ""); ("target_role", VInt 0)] Fixture.world
              eq_refl eq_refl) as [_ Hfull].
  destruct (Hfull ltac:(discriminate)) as [Hresume Hrole].
  split; [ apply Hresume | apply Hrole ]; reflexivity.
Defined.

(** * [/ai/status] and start-up *)

(** [/ai/status] never raises and always answers 200. It reports the
    service available exactly when start-up built one and the trial call
    of [generate_career_recommendations] returns: a service whose call
    fails is reported unavailable, with 200 all the same. *)
Theorem status_available_iff env process w :
  exists body,
    fst (Ai.ai_service_status env process w) = Ok (VDict body, 200%Z) /\
    (dict_lookup "available" body = Some (VBool true) <->
     exists service r,
       gemini_service env = Some service /\
       generate_career_recommendations service
         (VDict [("technical", VList [VStr "python"])])
         (VDict [("industries", VStr "technology")])
         (VStr "intermediate") = Ok r).
Proof.
  unfold Ai.ai_service_status.
  destruct (gemini_service env) as [service | ] eqn:Hservice.
  - unfold try_except, gemini_call, bind, emit, lift, ret. cbn.
    destruct (generate_career_recommendations service _ _ _) as [r | e] eqn:Hcall; cbn.
    + eexists. split; [ reflexivity | ]. cbn. split; [ | reflexivity ].
      intros _. now exists service, r.
    + eexists. split; [ reflexivity | ]. cbn. split; [ discriminate | ].
      intros (service' & r & [= <-] & Hr). congruence.
  - eexists. split; [ reflexivity | ]. cbn. split; [ discriminate | ].
    now intros (service & r & Hnone & _).
Qed.

(** Start-up leaves a service exactly when the configuration check
    returned something true, [GEMINI_API_KEY] is set to a non-empty
    string and the constructor returned; the service is then the one the
    constructor built. *)
Theorem service_started_iff process check_config new_service w service :
  fst (startup process check_config new_service w) = Ok (Some service) <->
  (exists config_valid key,
     check_config = Ok config_valid /\ truthy config_valid = true /\
     getenv process "GEMINI_API_KEY" = Some key /\ key <> "" /\
     new_service = Ok service).
Proof.
  unfold startup, try_except, bind, print, emit, lift, ret. cbn.
  destruct check_config as [config_valid | e]; cbn.
  2:{ split; [ discriminate | ]. now intros (v & key & [=] & _). }
  destruct (getenv process "GEMINI_API_KEY") as [key | ] eqn:Hkey; cbn.
  2:{ rewrite andb_false_r. cbn. split; [ discriminate | ].
      now intros (v & key & _ & _ & [=] & _). }
  destruct (String.eqb_spec key "") as [-> | Hne]; cbn.
  { rewrite andb_false_r. cbn. split; [ discriminate | ].
    now intros (v & key & _ & _ & [= <-] & Hne & _). }
  rewrite andb_true_r.
  destruct (truthy config_valid) eqn:Hvalid; cbn.
  2:{ split; [ discriminate | ]. intros (v & key' & [= <-] & Hv & _). congruence. }
  destruct new_service as [g | e]; cbn.
  - split.
    + intros [= <-]. now exists config_valid, key.
    + now intros (v & key' & _ & _ & _ & _ & [= <-]).
  - split; [ discriminate | ]. now intros (v & key' & _ & _ & _ & _ & [=]).
Qed.

(** Start-up fails only with the configuration check, which stands before
    the [try]: a constructor of the service that raises is survived, with
    its message printed and no service left. *)
Theorem startup_raises_iff process check_config new_service w e :
  fst (startup process check_config new_service w) = Raise e <-> check_config = Raise e.
Proof.
  unfold startup, try_except, bind, print, emit, lift, ret. cbn.
  destruct check_config as [config_valid | e']; cbn.
  2:{ split; intros [= <-]; reflexivity. }
  split; [ | discriminate ].
  destruct (negb _); cbn;
    destruct (truthy config_valid && _); cbn; try discriminate;
    destruct new_service; cbn; discriminate.
Qed.

(** Without a non-empty [GEMINI_API_KEY], whatever the configuration check
    returns, start-up leaves no service, and an application that runs
    with what start-up left answers 503 on each of the four routes. *)
Theorem missing_key_disables_ai process check_config new_service w0 env route request w :
  truthy (of_option (getenv process "GEMINI_API_KEY")) = false ->
  (forall e, check_config <> Raise e) ->
  fst (startup process check_config new_service w0) = Ok (gemini_service env) ->
  In route (routes env) ->
  route_view route request w = (Ok Ai.unavailable, w).
Proof.
  intros Hkey Hconfig Hstart Hin.
  assert (Hnone : gemini_service env = None).
  { revert Hstart. unfold startup, try_except, bind, print, emit, lift, ret. cbn.
    destruct check_config as [config_valid | e]; [ | now destruct (Hconfig e) ].
    cbn. rewrite Hkey, andb_false_r. cbn. now intros [= <-]. }
  unfold routes in Hin. each_route Hin; run_view; now rewrite Hnone.
Qed.

Lemma empty_key_disables_ai :
  Ai.get_career_recommendations (Double.env None Double.no_os_error)
    (Fixture.body (VDict [("experience_level", VStr "senior")])) Fixture.world
  = (Ok (VDict [("error", VStr "AI service not available")], 503%Z), Fixture.world).
Proof.
  refine (missing_key_disables_ai
            {| getenv := fun k => if String.eqb k "GEMINI_API_KEY" then Some "" else None |}
            (Ok (VBool true)) (Ok Fixture.online) Fixture.world
            (Double.env None Double.no_os_error)
            (career_recommendations_route (Double.env None Double.no_os_error))
            (Fixture.body (VDict [("experience_level", VStr "senior")])) Fixture.world
            eq_refl _ eq_refl (or_introl eq_refl)).
  intros e. discriminate.
Defined.

(** * What a 200 of [/extract-resume] holds *)

Lemma resume_response_consistent name ext clean_text basic_info body :
  resume_response name ext clean_text basic_info = Ok body ->
  entry body "file_info" "file_type" = VStr ext
  /\ entry body "extracted_content" "full_text" = clean_text
  /\ entry body "file_info" "text_length" = VInt (count clean_text)
  /\ entry body "analysis" "appears_complete" = VBool (200 <? count clean_text)%Z
  /\ entry body "analysis" "skills_detected"
     = VInt (count (field (entry body "extracted_content" "basic_info") "skills" VNone))
  /\ entry body "analysis" "has_technical_background"
     = VBool (5 <? count (field (entry body "extracted_content" "basic_info") "skills" VNone))%Z
  /\ entry body "analysis" "has_contact_info"
     = VBool (truthy (field (entry body "extracted_content" "basic_info") "email" VNone))
  /\ entry body "analysis" "top_skill_categories"
     = VList (firstn 3 (map VStr (keys_of (field (entry body "extracted_content" "basic_info")
                                             "skills_by_category" VNone)))).
Proof.
  unfold resume_response, obind.
  destruct (py_len clean_text) as [n | e] eqn:Hlen; [ | discriminate ].
  apply py_len_count in Hlen. subst n.
  destruct basic_info as [ | | | | | d]; cbn -[count]; try discriminate.
  destruct (py_len match dict_lookup "skills" d with Some x => x | None => VList [] end)
    as [k | e] eqn:Hskills; [ | discriminate ].
  apply py_len_count in Hskills. subst k.
  destruct (py_keys match dict_lookup "skills_summary" d with Some x => x | None => VDict [] end)
    as [keys | e] eqn:Hkeys; [ | discriminate ].
  destruct (match dict_lookup "skills_summary" d with Some x => x | None => VDict [] end)
    as [ | | | | | summary] eqn:Hsummary; try discriminate Hkeys.
  injection Hkeys as <-. cbn -[count].
  intros [= <-]. unfold entry, field. cbn -[count]. repeat split.
Qed.

Lemma str_in_In s l : str_in s l = true -> In s l.
Proof.
  induction l as [ | x l IH]; cbn; [ discriminate | ].
  destruct (String.eqb_spec x s) as [-> | _]; cbn; [ now left | right; now apply IH ].
Qed.

(** A 200 of [/extract-resume] is the response dict of an accepted upload
    whose text was not empty. *)
Lemma extract_resume_200 env request w body :
  fst (extract_resume env request w) = Ok (body, 200%Z) ->
  exists f clean_text basic_info,
    uploaded (request_files request !! "resume") = Some f
    /\ str_in (file_extension_of (filename f)) allowed_extensions = true
    /\ resume_response (filename f) (file_extension_of (filename f)) clean_text basic_info
       = Ok body.
Proof.
  intros H.
  destruct (uploaded (request_files request !! "resume")) as [f | ] eqn:Hf.
  2:{ unfold extract_resume in H. rewrite Hf in H. discriminate H. }
  destruct (str_in (file_extension_of (filename f)) allowed_extensions) eqn:Hx.
  2:{ rewrite (extract_resume_rejects_first env request f w Hf Hx) in H. discriminate H. }
  destruct (os_error env (OpSave (upload_path env f))) as [e | ] eqn:Hs.
  { unfold extract_resume in H. rewrite Hf, Hx in H. cbn [negb] in H.
    fold (upload_path env f) in H.
    rewrite (bind_raise _ _ _ _ _ (file_save_fails env f _ w e Hs)) in H. discriminate H. }
  destruct (extract_resume_run env request f w Hf Hx Hs) as [Hfst _].
  rewrite Hfst in H. clear Hfst.
  exists f. revert H.
  unfold try_except, resume_try, resume_except, call_extract_resume_text,
    call_clean_extracted_text, call_extract_basic_info, bind, emit, print, emit, lift, ret.
  cbn.
  destruct (extract_resume_text env _ _) as [raw | e]; cbn; [ | discriminate ].
  destruct (truthy raw); cbn; [ | discriminate ].
  destruct (clean_extracted_text env raw) as [c | e]; cbn; [ | discriminate ].
  destruct (extract_basic_info env c raw) as [b | e]; cbn; [ | discriminate ].
  destruct (resume_response _ _ c b) as [r | e] eqn:Hr; cbn; [ | discriminate ].
  intros [= <-]. now exists c, b.
Qed.

(** In every 200 of [/extract-resume] the derived fields agree with the
    content carried beside them: [file_type] is one of the three allowed
    extensions (in lower case, whatever the case of the file name),
    [text_length] is the length of [full_text], [appears_complete] says
    whether that length exceeds 200, [skills_detected] is the number of
    [skills], [has_technical_background] says whether it exceeds 5,
    [has_contact_info] whether [email] counts as true, and
    [top_skill_categories] holds the first three keys of
    [skills_by_category], fewer if there are fewer. *)
Theorem resume_answer_is_consistent env request w body :
  fst (extract_resume env request w) = Ok (body, 200%Z) ->
  (exists ext, entry body "file_info" "file_type" = VStr ext /\ In ext allowed_extensions)
  /\ entry body "file_info" "text_length"
     = VInt (count (entry body "extracted_content" "full_text"))
  /\ entry body "analysis" "appears_complete"
     = VBool (200 <? count (entry body "extracted_content" "full_text"))%Z
  /\ entry body "analysis" "skills_detected"
     = VInt (count (field (entry body "extracted_content" "basic_info") "skills" VNone))
  /\ entry body "analysis" "has_technical_background"
     = VBool (5 <? count (field (entry body "extracted_content" "basic_info") "skills" VNone))%Z
  /\ entry body "analysis" "has_contact_info"
     = VBool (truthy (field (entry body "extracted_content" "basic_info") "email" VNone))
  /\ entry body "analysis" "top_skill_categories"
     = VList (firstn 3 (map VStr (keys_of (field (entry body "extracted_content" "basic_info")
                                             "skills_by_category" VNone)))).
Proof.
  intros H. destruct (extract_resume_200 env request w body H) as (f & c & b & Hf & Hx & Hr).
  destruct (resume_response_consistent _ _ _ _ _ Hr)
    as (Htype & Htext & Hlen & Hcomplete & Hn & Htech & Hcontact & Htop).
  rewrite Htext. repeat split; try assumption.
  exists (file_extension_of (filename f)). split; [ exact Htype | now apply str_in_In ].
Qed.

Lemma upper_case_upload_answer_is_consistent :
  exists body,
    fst (extract_resume (Double.env None Double.no_os_error)
           (Double.upload "CV.PDF" "Python developer") Double.world) = Ok (body, 200%Z)
    /\ entry body "file_info" "file_type" = VStr ".pdf"
    /\ entry body "analysis" "top_skill_categories" = VList [VStr "programming"]
    /\ ((exists ext, entry body "file_info" "file_type" = VStr ext /\ In ext allowed_extensions)
        /\ entry body "file_info" "text_length"
           = VInt (count (entry body "extracted_content" "full_text"))
        /\ entry body "analysis" "appears_complete"
           = VBool (200 <? count (entry body "extracted_content" "full_text"))%Z
        /\ entry body "analysis" "skills_detected"
           = VInt (count (field (entry body "extracted_content" "basic_info") "skills" VNone))
        /\ entry body "analysis" "has_technical_background"
           = VBool (5 <? count (field (entry body "extracted_content" "basic_info")
                                  "skills" VNone))%Z
        /\ entry body "analysis" "has_contact_info"
           = VBool (truthy (field (entry body "extracted_content" "basic_info") "email" VNone))
        /\ entry body "analysis" "top_skill_categories"
           = VList (firstn 3 (map VStr (keys_of (field (entry body "extracted_content"
                                                          "basic_info")
                                                   "skills_by_category" VNone))))).
Proof.
  eexists. split; [ reflexivity | ]. split; [ reflexivity | ]. split; [ reflexivity | ].
  apply (resume_answer_is_consistent (Double.env None Double.no_os_error)
           (Double.upload "CV.PDF" "Python developer") Double.world).
  reflexivity.
Defined.

(** * [/extract-skills] turns no upload away *)

Lemma bind_returns {S A B} (m : Eff S A) (k : A -> Eff S B) s b :
  fst (bind m k s) = Ok b -> exists a s', m s = (Ok a, s') /\ fst (k a s') = Ok b.
Proof.
  unfold bind. destruct (m s) as [[a | e] s']; cbn; [ | discriminate ].
  intros H. now exists a, s'.
Qed.

(** Once a file is uploaded, [/extract-skills] has two answers only. It
    has no test of the extension and none of the extracted text: whatever
    the reader returned, an empty text included, goes to the cleaner, and
    when the three functions of the core return and the profile can be
    read the answer is a 200 whose fields are read off the profile, the
    email being [""] when the profile has none. Anything raised on the
    way gives a 500 with its message. No upload gets a 400. *)
Theorem extract_skills_never_rejects env request f w body status :
  uploaded (request_files request !! "resume") = Some f ->
  fst (extract_skills env request w) = Ok (body, status) ->
  (status = 200%Z /\
   exists raw clean_text basic_info,
     clean_extracted_text env raw = Ok clean_text
     /\ extract_basic_info env clean_text raw = Ok basic_info
     /\ body = VDict
          [("skills", field basic_info "skills" (VList []));
           ("skills_by_category", field basic_info "skills_summary" (VDict []));
           ("total_skills_found", VInt (count (field basic_info "skills" (VList []))));
           ("extracted_info",
             VDict [("email", field basic_info "email" (VStr ""));
                    ("detected_skills", field basic_info "skills" (VList []))])])
  \/ (status = 500%Z /\
      exists e, body = VDict [("error", VStr ("Error extracting skills: " ++ str_exn e))]).
Proof.
  intros Hf H. unfold extract_skills in H. rewrite Hf in H.
  apply bind_returns in H as (there & w0 & _ & H).
  apply bind_returns in H as (u & w1 & _ & H).
  apply bind_returns in H as (ms & w2 & _ & H).
  apply bind_returns in H as (u' & w3 & _ & H).
  apply bind_returns in H as (r & w4 & Hr & H).
  apply (f_equal fst) in Hr. rewrite try_finally_fst in Hr by apply cleanup_total.
  cbn [fst] in Hr. revert Hr.
  unfold try_except, skills_try, skills_except, call_extract_resume_text,
    call_clean_extracted_text, call_extract_basic_info, bind, emit, print, emit, lift, ret.
  cbn -[count].
  destruct (extract_resume_text env _ _) as [raw | e]; cbn -[count].
  2:{ intros [= <-]. cbn in H. injection H as <- <-. right. split; [ reflexivity | now exists e ]. }
  destruct (clean_extracted_text env raw) as [c | e] eqn:Hc; cbn -[count].
  2:{ intros [= <-]. cbn in H. injection H as <- <-. right. split; [ reflexivity | now exists e ]. }
  destruct (extract_basic_info env c raw) as [b | e] eqn:Hb; cbn -[count].
  2:{ intros [= <-]. cbn in H. injection H as <- <-. right. split; [ reflexivity | now exists e ]. }
  destruct (py_get b "skills" (VList [])) as [skills | e] eqn:Hskills; cbn -[count].
  2:{ intros [= <-]. cbn in H. injection H as <- <-. right. split; [ reflexivity | now exists e ]. }
  destruct b as [ | | | | | d]; try discriminate Hskills.
  cbn in Hskills. injection Hskills as <-. cbn -[count].
  destruct (py_len _) as [n | e] eqn:Hn; cbn -[count].
  2:{ intros [= <-]. cbn in H. injection H as <- <-. right. split; [ reflexivity | now exists e ]. }
  apply py_len_count in Hn. subst n.
  intros [= <-]. cbn in H. injection H as <- <-. left. split; [ reflexivity | ].
  exists raw, c, (VDict d). repeat split; assumption.
Qed.

Lemma empty_upload_gets_skills :
  (200 = 200 /\
   exists raw clean_text basic_info,
     clean_extracted_text (Double.env None Double.no_os_error) raw = Ok clean_text
     /\ extract_basic_info (Double.env None Double.no_os_error) clean_text raw = Ok basic_info
     /\ VDict [("skills", VList [VStr "python"]);
               ("skills_by_category", VDict [("programming", VList [VStr "python"])]);
               ("total_skills_found", VInt 1);
               ("extracted_info",
                 VDict [("email", VNone); ("detected_skills", VList [VStr "python"])])]
        = VDict
          [("skills", field basic_info "skills" (VList []));
           ("skills_by_category", field basic_info "skills_summary" (VDict []));
           ("total_skills_found", VInt (count (field basic_info "skills" (VList []))));
           ("extracted_info",
             VDict [("email", field basic_info "email" (VStr ""));
                    ("detected_skills", field basic_info "skills" (VList []))])])%Z
  \/ (200 = 500 /\
      exists e, VDict [("skills", VList [VStr "python"]);
               ("skills_by_category", VDict [("programming", VList [VStr "python"])]);
               ("total_skills_found", VInt 1);
               ("extracted_info",
                 VDict [("email", VNone); ("detected_skills", VList [VStr "python"])])]
                = VDict [("error", VStr ("Error extracting skills: " ++ str_exn e))])%Z.
Proof.
  apply (extract_skills_never_rejects (Double.env None Double.no_os_error)
           (Double.upload "notes.txt" "") {| filename := "notes.txt"; stream := [] |}
           Double.world); reflexivity.
Defined.

(** * The names [/extract-resume] accepts *)

Lemma substring_split n s :
  (n <= String.length s)%nat ->
  substring 0 n s ++ substring n (String.length s - n) s = s.
Proof.
  revert n. induction s as [ | c s IH]; intros n Hn; cbn in *.
  - destruct n; [ reflexivity | lia ].
  - destruct n as [ | n]; cbn.
    + rewrite append_nil. f_equal. clear. induction s as [ | a s IH]; cbn; [ reflexivity | ].
      now rewrite IH.
    + rewrite append_cons. f_equal. apply IH. lia.
Qed.

Lemma lower_append a b : lower (a ++ b) = lower a ++ lower b.
Proof.
  induction a as [ | c a IH]; rewrite ?append_nil, ?append_cons; cbn [lower];
    rewrite ?append_nil, ?append_cons; [ reflexivity | now rewrite IH ].
Qed.

(** [root + ext == p], as the documentation of [os.path.splitext] has it;
    and an extension that is not empty leaves a root that is not. *)
Lemma splitext_join p :
  fst (splitext p) ++ snd (splitext p) = p
  /\ (snd (splitext p) <> "" -> fst (splitext p) <> "").
Proof.
  unfold splitext, slice_to, slice_from.
  pose proof (rfind_lower_bound sep p) as Hsep.
  pose proof (rfind_upper_bound extsep p) as Hdot.
  destruct (rfind sep p <? rfind extsep p)%Z eqn:Hlt; cbn [andb].
  2:{ cbn [fst snd]. split; [ | easy ].
      clear. induction p as [ | c p IH]; [ reflexivity | ]. now rewrite append_cons, IH. }
  apply Z.ltb_lt in Hlt.
  destruct (has_stem _ p _) eqn:Hstem; cbn [fst snd].
  2:{ split; [ | easy ].
      clear. induction p as [ | c p IH]; [ reflexivity | ]. now rewrite append_cons, IH. }
  split.
  - apply substring_split. lia.
  - intros _.
    assert (Hpos : (1 <= rfind extsep p)%Z).
    { destruct (Z.to_nat (rfind extsep p - (rfind sep p + 1))) eqn:Hn;
        [ discriminate Hstem | lia ]. }
    destruct p as [ | c p]; [ cbn in Hpos; lia | ].
    destruct (Z.to_nat (rfind extsep (String c p))) eqn:Hk; [ lia | ].
    cbn. discriminate.
Qed.

(** A name that [/extract-resume] does not turn away as unsupported
    ends, the case of its letters aside, in [.pdf], [.docx] or [.doc],
    and something stands before the extension: a file called just
    [.pdf] is turned away. *)
Theorem accepted_name_has_allowed_suffix env request f w :
  uploaded (request_files request !! "resume") = Some f ->
  fst (extract_resume env request w) <> Ok unsupported_format ->
  exists stem ext,
    lower (filename f) = stem ++ ext /\ stem <> "" /\ In ext allowed_extensions.
Proof.
  intros Hf Hok.
  destruct (str_in (file_extension_of (filename f)) allowed_extensions) eqn:Hx.
  2:{ destruct Hok. now apply (extract_resume_unsupported_iff env request f w Hf). }
  destruct (splitext_join (filename f)) as [Hjoin Hroot].
  exists (lower (fst (splitext (filename f)))), (file_extension_of (filename f)).
  split; [ | split ].
  - unfold file_extension_of. now rewrite <- lower_append, Hjoin.
  - assert (Hext : snd (splitext (filename f)) <> "").
    { intros Hempty. unfold file_extension_of in Hx. rewrite Hempty in Hx. discriminate Hx. }
    specialize (Hroot Hext).
    destruct (fst (splitext (filename f))); [ easy | discriminate ].
  - now apply str_in_In.
Qed.

Lemma mixed_case_docx_has_allowed_suffix :
  exists stem ext,
    lower "Jane.Doe.DocX" = stem ++ ext /\ stem <> "" /\ In ext allowed_extensions.
Proof.
  apply (accepted_name_has_allowed_suffix (Double.env None Double.no_os_error)
           (Double.upload "Jane.Doe.DocX" "Python developer")
           {| filename := "Jane.Doe.DocX"; stream := list_byte_of_string "Python developer" |}
           Double.world).
  - reflexivity.
  - intros H. vm_compute in H. discriminate H.
Defined.

Example hidden_pdf_is_unsupported :
  fst (extract_resume (Double.env None Double.no_os_error)
         (Double.upload ".pdf" "%PDF-1.7") Double.world) = Ok unsupported_format.
Proof. reflexivity. Qed.

(** * What [ai_insights] tells about the service *)

Lemma dict_set_nonempty k v d : dict_set k v d <> [].
Proof. destruct d as [ | [k' v'] r]; cbn; [ discriminate | ]. now destruct (String.eqb k' k). Qed.

(** When the calls of the block all return, they have assigned. *)
Lemma ai_calls_assigns g basic_info clean_text preferences w u s :
  ai_calls g basic_info clean_text preferences (w, []) = (Ok u, s) -> snd s <> [].
Proof.
  unfold ai_calls, bind, lift, in_world, gemini_call, bind, emit, lift, assign, print, emit.
  cbn.
  repeat match goal with
    | |- context [match ?o with Ok _ => _ | Raise _ => _ end] =>
        destruct o; cbn; [ | discriminate ]
    end.
  intros [= <- <-]. cbn. discriminate.
Qed.

Lemma ai_recorded_empty_iff env basic_info clean_text preferences w ai :
  ai_recorded env basic_info clean_text preferences w ai ->
  (ai = [] <-> gemini_service env = None).
Proof.
  unfold ai_recorded. destruct (gemini_service env) as [g | ].
  2:{ intros ->. now split. }
  destruct (ai_calls g basic_info clean_text preferences (w, [])) as [[u | e] s] eqn:Hcalls.
  - intros ->. split; [ | discriminate ].
    intros Hempty. now destruct (ai_calls_assigns _ _ _ _ _ _ _ Hcalls).
  - intros [-> _]. split; [ | discriminate ].
    intros Hempty. now destruct (dict_set_nonempty _ _ _ Hempty).
Qed.

(** A 200 of [/process] carries under [ai_insights] what the block
    recorded. *)
Lemma process_resume_200_insights env request w body :
  fst (process_resume env request w) = Ok (body, 200%Z) ->
  exists clean_text basic_info w1 ai,
    ai_recorded env basic_info clean_text
      (preferences_of (form_field request "industries") (form_field request "goals")
         (form_field request "location")) w1 ai
    /\ field body "ai_insights" VNone = VDict ai.
Proof.
  intros H.
  destruct (uploaded (request_files request !! "resume")) as [f | ] eqn:Hf.
  2:{ unfold process_resume in H. rewrite Hf in H. discriminate H. }
  destruct (os_error env (OpSave (upload_path env f))) as [e | ] eqn:Hs.
  { unfold process_resume in H. rewrite Hf in H. fold (upload_path env f) in H.
    rewrite (bind_raise _ _ _ _ _ (file_save_fails env f _ w e Hs)) in H. discriminate H. }
  destruct (process_resume_run env request f w Hf Hs) as [Hfst _].
  rewrite Hfst in H. clear Hfst. unfold try_except in H.
  pose proof (process_try_cases env (form_field request "industries")
                (form_field request "goals") (form_field request "location")
                (upload_path env f) (stored (upload_path env f) f w)) as Hc.
  destruct (process_try _ _ _ _ _ _) as [[[r | v] | e] w2]; cbn in Hc, H.
  - destruct Hc as [-> _]. discriminate H.
  - destruct Hc as (raw & c & b & info & ai & w1 & _ & _ & _ & _ & _ & Hai & ->).
    injection H as <-. now exists c, b, w1, ai.
  - discriminate H.
Qed.

(** In a 200 of [/process], [ai_insights] is the empty object exactly
    when the application runs without a service. With a service the
    block always leaves something: the results of the calls that
    returned, or at least ['error']. *)
Theorem insights_empty_iff_no_service env request w body :
  fst (process_resume env request w) = Ok (body, 200%Z) ->
  (field body "ai_insights" VNone = VDict [] <-> gemini_service env = None).
Proof.
  intros H.
  destruct (process_resume_200_insights env request w body H)
    as (c & b & w1 & ai & Hai & ->).
  destruct (ai_recorded_empty_iff _ _ _ _ _ _ Hai) as [Hto Hfrom].
  split.
  - intros [= ->]. now apply Hto.
  - intros Hnone. now rewrite (Hfrom Hnone).
Qed.


Lemma offline_service_leaves_an_error :
  exists body,
    fst (process_resume (Double.env (Some Double.offline) Double.no_os_error)
           (Double.upload "cv.pdf" "Python") Double.world) = Ok (body, 200%Z)
    /\ field body "ai_insights" VNone = VDict [("error", VStr "503 unavailable")]
    /\ (field body "ai_insights" VNone = VDict []
        <-> gemini_service (Double.env (Some Double.offline) Double.no_os_error) = None).
Proof.
  eexists. split; [ vm_compute; reflexivity | ]. split; [ reflexivity | ].
  apply (insights_empty_iff_no_service (Double.env (Some Double.offline) Double.no_os_error)
           (Double.upload "cv.pdf" "Python") Double.world).
  vm_compute. reflexivity.
Defined.
